(** * SmartGen CV maker: the photo pipeline

    A shallow embedding of the client-side photo pipeline
    (MobileCropTool, EnhancedPhotoCapture, CVPhotoTemplates and
    MasterPhotoCapture) together with the properties its specification
    states about it.

    React state is a record; an event handler is a function from the
    state before the event to the state after it, and the effects it has
    on the outside (toasts, console output, callbacks of the parent
    component, canvas drawing) are returned as data. *)

From Stdlib Require Import ZArith QArith Qround Lqa Lia List String Bool.
From Stdlib Require Import Ascii.
Import ListNotations.

(** ** JavaScript numbers

    A number is a rational or one of the three special values of IEEE
    arithmetic.  Finite arithmetic is exact (no rounding to 53 bits) and
    a zero is the positive zero; the special values follow IEEE 754, so a
    division by zero gives an infinity, or [NaN] for 0/0.  The
    properties below are those of exact arithmetic: an identity between
    two ways of computing a quantity holds in the browser up to the
    rounding to 53 bits only. *)
Module Num.

Inductive num : Type :=
| NaN
| PInf
| NInf
| Fin (q : Q).

Definition inf_of (c : comparison) : num :=
  match c with Gt => PInf | Lt => NInf | Eq => NaN end.

Definition neg (a : num) : num :=
  match a with
  | NaN => NaN
  | PInf => NInf
  | NInf => PInf
  | Fin q => Fin (- q)
  end.

Definition add (a b : num) : num :=
  match a, b with
  | NaN, _ | _, NaN => NaN
  | PInf, NInf | NInf, PInf => NaN
  | PInf, _ | _, PInf => PInf
  | NInf, _ | _, NInf => NInf
  | Fin p, Fin q => Fin (p + q)
  end.

Definition sub (a b : num) : num :=
  match a, b with
  | Fin p, Fin q => Fin (p - q)
  | _, _ => add a (neg b)
  end.

Definition mul (a b : num) : num :=
  match a, b with
  | NaN, _ | _, NaN => NaN
  | Fin p, Fin q => Fin (p * q)
  | PInf, PInf | NInf, NInf => PInf
  | PInf, NInf | NInf, PInf => NInf
  | PInf, Fin q | Fin q, PInf => inf_of (q ?= 0)
  | NInf, Fin q | Fin q, NInf => inf_of (0 ?= q)
  end.

Definition div (a b : num) : num :=
  match a, b with
  | NaN, _ | _, NaN => NaN
  | Fin p, Fin q => if Qeq_bool q 0 then inf_of (p ?= 0) else Fin (p / q)
  | Fin _, _ => Fin 0
  | _, PInf | _, NInf => NaN
  | PInf, Fin q => if Qle_bool 0 q then PInf else NInf
  | NInf, Fin q => if Qle_bool 0 q then NInf else PInf
  end.

(** [a <= b] of JavaScript: false as soon as one side is [NaN]. *)
Definition leb (a b : num) : bool :=
  match a, b with
  | NaN, _ | _, NaN => false
  | NInf, _ => true
  | _, PInf => true
  | Fin p, Fin q => Qle_bool p q
  | _, _ => false
  end.

(** [a === b] on numbers. *)
Definition eqb (a b : num) : bool :=
  match a, b with
  | Fin p, Fin q => Qeq_bool p q
  | PInf, PInf | NInf, NInf => true
  | _, _ => false
  end.

(** [Number.isInteger] *)
Definition isInteger (a : num) : bool :=
  match a with
  | Fin q => Qeq_bool q (inject_Z (Qfloor q))
  | _ => false
  end.

(** [Math.floor] *)
Definition Math_floor (a : num) : num :=
  match a with
  | Fin q => Fin (inject_Z (Qfloor q))
  | _ => a
  end.

(** [a < b] of JavaScript. *)
Definition ltb (a b : num) : bool :=
  match a, b with
  | NaN, _ | _, NaN => false
  | PInf, _ => false
  | _, NInf => false
  | Fin p, Fin q => negb (Qle_bool q p)
  | _, _ => true
  end.

(** [Math.min] and [Math.max]: [NaN] as soon as one argument is. *)
Definition Math_min (a b : num) : num :=
  match a, b with
  | NaN, _ | _, NaN => NaN
  | _, _ => if leb a b then a else b
  end.

Definition Math_max (a b : num) : num :=
  match a, b with
  | NaN, _ | _, NaN => NaN
  | _, _ => if leb a b then b else a
  end.

(** Truthiness of a number: 0 and [NaN] are falsy. *)
Definition truthy (a : num) : bool :=
  match a with
  | NaN => false
  | Fin q => negb (Qeq_bool q 0)
  | _ => true
  end.

(** [a || b] on numbers. *)
Definition or_else (a b : num) : num := if truthy a then a else b.

Definition finite (a : num) : Prop := exists q, a = Fin q.

(** [Number.isFinite] *)
Definition isFinite (a : num) : bool :=
  match a with Fin _ => true | _ => false end.

(** [lo <= a <= hi] as JavaScript evaluates it. *)
Definition between (lo hi a : num) : bool := leb lo a && leb a hi.

(** Truncation towards zero, and the conversion of a number to an
    [unsigned long] (WebIDL: a value that is not finite becomes 0, a
    finite one is truncated and reduced modulo 2^32). *)
Definition Qtrunc (q : Q) : Z := if Qle_bool 0 q then Qfloor q else Qceiling q.

Definition ToUint32 (a : num) : Z :=
  match a with
  | Fin q => Z.modulo (Qtrunc q) (2 ^ 32)
  | _ => 0%Z
  end.

(** An assignment to [canvas.width] or [canvas.height].  The two
    attributes reflect content attributes: the number is converted to an
    [unsigned long] and kept when it is at most 2^31-1; above that the
    attribute takes its default, 300 for the width and 150 for the
    height. *)
Definition reflected (default : Z) (a : num) : Z :=
  let value := ToUint32 a in
  if (value <=? 2 ^ 31 - 1)%Z then value else default.

Definition canvasWidthOf (a : num) : Z := reflected 300 a.
Definition canvasHeightOf (a : num) : Z := reflected 150 a.

(** A square root on the rationals: the integer square root of
    numerator * denominator over the denominator, exact on the squares of
    rationals.  It stands for [Math.sqrt] where a concrete run is
    evaluated. *)
Definition Qsqrt (q : Q) : Q :=
  Qmake (Z.sqrt (Qnum q * Zpos (Qden q))) (Qden q).

End Num.
Import Num.

Declare Scope num_scope.
Delimit Scope num_scope with num.
Bind Scope num_scope with num.
Infix "+" := add : num_scope.
Infix "-" := sub : num_scope.
Infix "*" := mul : num_scope.
Infix "/" := div : num_scope.
Notation "<< q >>" := (Fin q%Q) (at level 0, q at level 99, format "<< q >>") : num_scope.

(** ** MobileCropTool: the crop controller *)
Module MobileCropTool.
Local Open Scope num_scope.

Record TouchPoint := { tp_x : num; tp_y : num }.

(** A touch (or a mouse event) as the browser delivers it: finite client
    coordinates. *)
Record Touch := { clientX : Q; clientY : Q }.

Record DOMRect := { left : Q; top : Q; rect_width : Q; rect_height : Q }.

(** The container element behind [containerRef]. *)
Record Container := {
  boundingClientRect : DOMRect;
  clientWidth : Q;
  clientHeight : Q
}.

(** The [<img>] behind [imageRef]. *)
Record Image := {
  naturalWidth : Q;
  naturalHeight : Q;
  imgDisplayRect : DOMRect
}.

(** The rotation is a whole number of degrees: it starts at 0 and only
    ever becomes [(rotation + 90) % 360]. *)
Record CropData := {
  x : num;
  y : num;
  width : num;
  height : num;
  zoom : num;
  rotation : Z
}.

Inductive CanvasOp :=
| Save
| Translate (tx ty : num)
| Rotate (degrees : Z)      (* the angle degrees * PI / 180 *)
| Scale (sx sy : num)
| DrawImage (sx sy sw sh dx dy dw dh : num)
| Restore.

(** The hidden canvas behind [canvasRef]; [has_context] is whether
    [getContext('2d')] answers. *)
Record Canvas := {
  has_context : bool;
  canvas_width : Z;
  canvas_height : Z;
  drawn : list CanvasOp
}.

(** Props and refs of the component, and the outcome of [canvas.toBlob]
    followed by [URL.createObjectURL] ([None] when the blob is null). *)
Record Env := {
  aspectRatio : num;
  containerRef : option Container;
  imageRef : option Image;
  canvasRef : option Canvas;
  toBlob : Canvas -> option string
}.

Record State := {
  cropData : CropData;
  isDragging : bool;
  isResizing : bool;
  isPinching : bool;
  lastTouchDistance : num;
  dragStart : TouchPoint;
  touchStart : list TouchPoint
}.

Definition initialState : State := {|
  cropData := {| x := <<0>>; y := <<0>>; width := <<300>>; height := <<450>>;
                 zoom := <<1>>; rotation := 0 |};
  isDragging := false;
  isResizing := false;
  isPinching := false;
  lastTouchDistance := <<0>>;
  dragStart := {| tp_x := <<0>>; tp_y := <<0>> |};
  touchStart := []
|}.

(** [setCropData(prev => ({ ...prev, x, y }))] and its siblings. *)
Definition with_xy (nx ny : num) (d : CropData) : CropData :=
  {| x := nx; y := ny; width := width d; height := height d;
     zoom := zoom d; rotation := rotation d |}.

Definition with_zoom (z : num) (d : CropData) : CropData :=
  {| x := x d; y := y d; width := width d; height := height d;
     zoom := z; rotation := rotation d |}.

Definition with_rotation (r : Z) (d : CropData) : CropData :=
  {| x := x d; y := y d; width := width d; height := height d;
     zoom := zoom d; rotation := r |}.

Definition setCropData (f : CropData -> CropData) (s : State) : State :=
  {| cropData := f (cropData s); isDragging := isDragging s;
     isResizing := isResizing s; isPinching := isPinching s;
     lastTouchDistance := lastTouchDistance s; dragStart := dragStart s;
     touchStart := touchStart s |}.

Definition setIsDragging (b : bool) (s : State) : State :=
  {| cropData := cropData s; isDragging := b;
     isResizing := isResizing s; isPinching := isPinching s;
     lastTouchDistance := lastTouchDistance s; dragStart := dragStart s;
     touchStart := touchStart s |}.

Definition setIsPinching (b : bool) (s : State) : State :=
  {| cropData := cropData s; isDragging := isDragging s;
     isResizing := isResizing s; isPinching := b;
     lastTouchDistance := lastTouchDistance s; dragStart := dragStart s;
     touchStart := touchStart s |}.

Definition setLastTouchDistance (d : num) (s : State) : State :=
  {| cropData := cropData s; isDragging := isDragging s;
     isResizing := isResizing s; isPinching := isPinching s;
     lastTouchDistance := d; dragStart := dragStart s;
     touchStart := touchStart s |}.

Definition setDragStart (p : TouchPoint) (s : State) : State :=
  {| cropData := cropData s; isDragging := isDragging s;
     isResizing := isResizing s; isPinching := isPinching s;
     lastTouchDistance := lastTouchDistance s; dragStart := p;
     touchStart := touchStart s |}.

Definition setTouchStart (l : list TouchPoint) (s : State) : State :=
  {| cropData := cropData s; isDragging := isDragging s;
     isResizing := isResizing s; isPinching := isPinching s;
     lastTouchDistance := lastTouchDistance s; dragStart := dragStart s;
     touchStart := l |}.

Section Handlers.

(** [Math.sqrt] on the finite, non-negative sums of squares it is applied
    to. *)
Variable Math_sqrt : Q -> Q.
Variable env : Env.

(** Distance between the first two touch points, 0 with fewer than two. *)
Definition getTouchDistance (touches : list Touch) : num :=
  match touches with
  | touch1 :: touch2 :: _ =>
      Fin (Math_sqrt ((clientX touch2 - clientX touch1) * (clientX touch2 - clientX touch1)
                      + (clientY touch2 - clientY touch1) * (clientY touch2 - clientY touch1))%Q)
  | _ => <<0>>
  end.

(** Position of a touch relative to the container. *)
Definition getTouchPosition (touch : Touch) : TouchPoint :=
  match containerRef env with
  | None => {| tp_x := <<0>>; tp_y := <<0>> |}
  | Some c =>
      let rect := boundingClientRect c in
      {| tp_x := Fin (clientX touch) - Fin (left rect);
         tp_y := Fin (clientY touch) - Fin (top rect) |}
  end.

Definition handleTouchStart (touches : list Touch) (s : State) : State :=
  let s := setTouchStart (map getTouchPosition touches) s in
  match touches with
  | [t] =>
      let touch := getTouchPosition t in
      setDragStart {| tp_x := tp_x touch - x (cropData s);
                      tp_y := tp_y touch - y (cropData s) |}
        (setIsDragging true s)
  | [_; _] =>
      setLastTouchDistance (getTouchDistance touches)
        (setIsDragging false (setIsPinching true s))
  | _ => s
  end.

(** [containerRef.current?.clientWidth || 0] *)
Definition containerClientWidth : num :=
  match containerRef env with
  | Some c => or_else (Fin (clientWidth c)) <<0>>
  | None => <<0>>
  end.

Definition containerClientHeight : num :=
  match containerRef env with
  | Some c => or_else (Fin (clientHeight c)) <<0>>
  | None => <<0>>
  end.

Definition handleTouchMove (touches : list Touch) (s : State) : State :=
  match touches with
  | [t] =>
      if isDragging s && negb (isPinching s) then
        let touch := getTouchPosition t in
        let newX := tp_x touch - tp_x (dragStart s) in
        let newY := tp_y touch - tp_y (dragStart s) in
        setCropData (fun prev =>
          with_xy
            (Math_max <<0>> (Math_min newX (containerClientWidth - width prev)))
            (Math_max <<0>> (Math_min newY (containerClientHeight - height prev)))
            prev) s
      else s
  | [_; _] =>
      if isPinching s then
        let currentDistance := getTouchDistance touches in
        let scaleFactor := currentDistance / lastTouchDistance s in
        setLastTouchDistance currentDistance
          (setCropData (fun prev =>
             with_zoom (Math_max <<1#2>> (Math_min <<3>> (zoom prev * scaleFactor))) prev) s)
      else s
  | _ => s
  end.

Definition handleTouchEnd (touches : list Touch) (s : State) : State :=
  match touches with
  | [] => setIsPinching false (setIsDragging false s)
  | [t] =>
      if isPinching s then
        let touch := getTouchPosition t in
        setDragStart {| tp_x := tp_x touch - x (cropData s);
                        tp_y := tp_y touch - y (cropData s) |}
          (setIsDragging true (setIsPinching false s))
      else s
  | _ => s
  end.

Definition handleMouseDown (e : Touch) (s : State) : State :=
  match containerRef env with
  | None => s
  | Some c =>
      let rect := boundingClientRect c in
      let mx := Fin (clientX e) - Fin (left rect) in
      let my := Fin (clientY e) - Fin (top rect) in
      setDragStart {| tp_x := mx - x (cropData s); tp_y := my - y (cropData s) |}
        (setIsDragging true s)
  end.

Definition handleMouseMove (e : Touch) (s : State) : State :=
  match isDragging s, containerRef env with
  | true, Some c =>
      let rect := boundingClientRect c in
      let mx := Fin (clientX e) - Fin (left rect) in
      let my := Fin (clientY e) - Fin (top rect) in
      let newX := mx - tp_x (dragStart s) in
      let newY := my - tp_y (dragStart s) in
      setCropData (fun prev =>
        with_xy
          (Math_max <<0>> (Math_min newX (Fin (rect_width rect) - width prev)))
          (Math_max <<0>> (Math_min newY (Fin (rect_height rect) - height prev)))
          prev) s
  | _, _ => s
  end.

Definition handleMouseUp (s : State) : State := setIsDragging false s.

Definition zoomIn (s : State) : State :=
  setCropData (fun prev => with_zoom (Math_min <<3>> (zoom prev + <<1#10>>)) prev) s.

Definition zoomOut (s : State) : State :=
  setCropData (fun prev => with_zoom (Math_max <<1#2>> (zoom prev - <<1#10>>)) prev) s.

(** [%] of JavaScript takes the sign of the dividend: [Z.rem]. *)
Definition rotateImage (s : State) : State :=
  setCropData (fun prev => with_rotation (Z.rem (rotation prev + 90) 360) prev) s.

Definition resetCrop (s : State) : State :=
  setCropData (fun _ =>
    {| x := <<0>>; y := <<0>>; width := <<300>>; height := <<300>> / aspectRatio env;
       zoom := <<1>>; rotation := 0 |}) s.

(** The effect that initializes the crop area when the image loads. *)
Definition initCropArea (s : State) : State :=
  match imageRef env, containerRef env with
  | Some _, Some c =>
      let containerRect := boundingClientRect c in
      let cropWidth := Math_min <<300>> (Fin (rect_width containerRect) * <<8#10>>) in
      let cropHeight := cropWidth / aspectRatio env in
      setCropData (fun prev =>
        {| x := (Fin (rect_width containerRect) - cropWidth) / <<2>>;
           y := (Fin (rect_height containerRect) - cropHeight) / <<2>>;
           width := cropWidth; height := cropHeight;
           zoom := zoom prev; rotation := rotation prev |}) s
  | _, _ => s
  end.

(** The crop area in image coordinates, as [applyCrop] computes it. *)
Definition cropSourceRect (img : Image) (d : CropData) : num * num * num * num :=
  let scaleX := Fin (naturalWidth img) / Fin (rect_width (imgDisplayRect img)) in
  let scaleY := Fin (naturalHeight img) / Fin (rect_height (imgDisplayRect img)) in
  (x d * scaleX, y d * scaleY, width d * scaleX, height d * scaleY).

(** The mapping as the specification words it ([computeCropSourceRect]):
    each coordinate times natural/display, rounded down. *)
Definition computeCropSourceRect_spec (img : Image) (d : CropData)
  : num * num * num * num :=
  let '(sx, sy, sw, sh) := cropSourceRect img d in
  (Math_floor sx, Math_floor sy, Math_floor sw, Math_floor sh).

Definition outputWidth : num := <<400>>.
Definition outputHeight : num := outputWidth / aspectRatio env.

(** [applyCrop]: the canvas after the call ([None] when the function
    returns before touching it) and the URLs handed to [onCropComplete]. *)
Definition applyCrop (s : State) : option Canvas * list string :=
  match imageRef env, canvasRef env with
  | Some img, Some canvas =>
      if has_context canvas then
        let sized := {| has_context := true;
                        canvas_width := canvasWidthOf outputWidth;
                        canvas_height := canvasHeightOf outputHeight;
                        drawn := [] |} in
        match containerRef env with
        | None => (Some sized, [])
        | Some _ =>
            let d := cropData s in
            let '(cropX, cropY, cropWidth, cropHeight) := cropSourceRect img d in
            let painted := {|
              has_context := true;
              canvas_width := canvas_width sized;
              canvas_height := canvas_height sized;
              drawn := [ Save;
                         Translate (outputWidth / <<2>>) (outputHeight / <<2>>);
                         Rotate (rotation d);
                         Scale (zoom d) (zoom d);
                         DrawImage cropX cropY cropWidth cropHeight
                           (neg outputWidth / (<<2>> * zoom d))
                           (neg outputHeight / (<<2>> * zoom d))
                           (outputWidth / zoom d)
                           (outputHeight / zoom d);
                         Restore ] |} in
            match toBlob env painted with
            | Some croppedUrl => (Some painted, [croppedUrl])
            | None => (Some painted, [])
            end
        end
      else (None, [])
  | _, _ => (None, [])
  end.

(** The operations of the controller as events. *)
Inductive Event :=
| TouchStart (touches : list Touch)
| TouchMove (touches : list Touch)
| TouchEnd (touches : list Touch)
| MouseDown (e : Touch)
| MouseMove (e : Touch)
| MouseUp
| ZoomIn
| ZoomOut
| RotateImage
| ResetCrop.

Definition step (s : State) (e : Event) : State :=
  match e with
  | TouchStart t => handleTouchStart t s
  | TouchMove t => handleTouchMove t s
  | TouchEnd t => handleTouchEnd t s
  | MouseDown m => handleMouseDown m s
  | MouseMove m => handleMouseMove m s
  | MouseUp => handleMouseUp s
  | ZoomIn => zoomIn s
  | ZoomOut => zoomOut s
  | RotateImage => rotateImage s
  | ResetCrop => resetCrop s
  end.

Definition run (events : list Event) (s : State) : State :=
  fold_left step events s.

(** The region lies inside a container of the given size. *)
Definition inside (containerWidth containerHeight : num) (d : CropData) : bool :=
  leb <<0>> (x d) && leb <<0>> (y d)
  && leb (x d + width d) containerWidth
  && leb (y d + height d) containerHeight.

End Handlers.

(** The source rectangles a canvas was drawn from. *)
Definition sourceRects (cv : Canvas) : list (num * num * num * num) :=
  flat_map (fun op =>
    match op with
    | DrawImage sx sy sw sh _ _ _ _ => [(sx, sy, sw, sh)]
    | _ => []
    end) (drawn cv).

(** What every operation keeps: the region inside the container, and a
    drag origin that is a finite point. *)
Definition anchored (s : State) : Prop :=
  finite (tp_x (dragStart s)) /\ finite (tp_y (dragStart s)).

Definition invariant (containerWidth containerHeight : num) (s : State) : Prop :=
  inside containerWidth containerHeight (cropData s) = true /\ anchored s.

(** Preset aspect ratios for the CV photo types. *)
Definition CVPhotoRatios : list (string * num) :=
  [ ("passport"%string, <<4>> / <<6>>);
    ("square"%string, <<1>> / <<1>>);
    ("headshot"%string, <<3>> / <<4>>);
    ("id"%string, <<2>> / <<3>>);
    ("linkedin"%string, <<4>> / <<5>>) ].

End MobileCropTool.

(** ** EnhancedPhotoCapture: capture and file ingestion *)
Module EnhancedPhotoCapture.
Local Open Scope string_scope.

Inductive Mode := mode_capture | mode_upload | mode_edit.
Inductive Step := step_capture | step_crop | step_enhance | step_template.

(** An uploaded file: declared MIME type, size in bytes, and what a
    [FileReader] makes of it ([None] when reading yields no result). *)
Record File := {
  type : string;
  size : Z;
  dataURL : option string
}.

Record State := {
  activeMode : Mode;
  isStreaming : bool;
  selectedImage : option string;
  editedImage : option string;
  currentStep : Step
}.

Definition initialState : State := {|
  activeMode := mode_capture;
  isStreaming := false;
  selectedImage := None;
  editedImage := None;
  currentStep := step_capture
|}.

Inductive Effect :=
| ToastError (message : string)
| ReadAsDataURL (file : File).

Definition supportedTypes : list string :=
  ["image/jpeg"; "image/jpg"; "image/png"; "image/webp"; "image/heic"].

(** [Array.prototype.includes] on strings. *)
Definition includes (l : list string) (s : string) : bool :=
  existsb (fun t => String.eqb t s) l.

Definition maxFileSize : Z := 10 * 1024 * 1024.

(** [handleFileUpload] on the file list of the input element: the state
    is only ever changed later, by the reader's [onload]. *)
Definition handleFileUpload (files : list File) (st : State) : State * list Effect :=
  match files with
  | [] => (st, [])
  | file :: _ =>
      if negb (includes supportedTypes (type file)) then
        (st, [ToastError "Format tidak didukung. Gunakan JPEG, PNG, WebP, atau HEIC."])
      else if (maxFileSize <? size file)%Z then
        (st, [ToastError "File terlalu besar. Maksimal 10MB."])
      else
        (st, [ReadAsDataURL file])
  end.

(** [reader.onload]: a truthy result becomes the selected image. *)
Definition reader_onload (result : option string) (st : State) : State :=
  match result with
  | Some url =>
      if String.eqb url "" then st
      else {| activeMode := mode_edit;
              isStreaming := isStreaming st;
              selectedImage := Some url;
              editedImage := editedImage st;
              currentStep := step_crop |}
  | None => st
  end.

(** The whole ingestion: the handler, then the reader callbacks it set
    off. *)
Definition settle (st : State) (e : Effect) : State :=
  match e with
  | ReadAsDataURL file => reader_onload (dataURL file) st
  | ToastError _ => st
  end.

Definition ingestFile (files : list File) (st : State) : State * list Effect :=
  let '(st1, effects) := handleFileUpload files st in
  (fold_left settle effects st1, effects).

(** The error names of the specification and the notice each one is
    reported with. *)
Inductive IngestError := UnsupportedFormat | FileTooLarge.

Definition notice (e : IngestError) : Effect :=
  match e with
  | UnsupportedFormat =>
      ToastError "Format tidak didukung. Gunakan JPEG, PNG, WebP, atau HEIC."
  | FileTooLarge => ToastError "File terlalu besar. Maksimal 10MB."
  end.

(** An ingestion produced an artifact when it started a read. *)
Definition producesArtifact (effects : list Effect) : bool :=
  existsb (fun e => match e with ReadAsDataURL _ => true | _ => false end) effects.

Definition MiB : Z := 1024 * 1024.

End EnhancedPhotoCapture.

(** ** MasterPhotoCapture: the workflow orchestrator *)
Module MasterPhotoCapture.
Local Open Scope string_scope.

Inductive WorkflowStep := capture | crop | enhance | templates | final.

Definition WorkflowStep_eqb (a b : WorkflowStep) : bool :=
  match a, b with
  | capture, capture | crop, crop | enhance, enhance
  | templates, templates | final, final => true
  | _, _ => false
  end.

Record State := {
  currentStep : WorkflowStep;
  capturedImage : string;
  croppedImage : string;
  enhancedImage : string;
  finalImage : string;
  selectedAspectRatio : num;
  processingStep : string
}.

Definition initialState : State := {|
  currentStep := capture;
  capturedImage := "";
  croppedImage := "";
  enhancedImage := "";
  finalImage := "";
  selectedAspectRatio := (<<4>> / <<6>>)%num;
  processingStep := ""
|}.

Definition setCurrentStep (w : WorkflowStep) (s : State) : State :=
  {| currentStep := w; capturedImage := capturedImage s;
     croppedImage := croppedImage s; enhancedImage := enhancedImage s;
     finalImage := finalImage s; selectedAspectRatio := selectedAspectRatio s;
     processingStep := processingStep s |}.

Definition handlePhotoCaptured (imageUrl : string) (s : State) : State :=
  {| currentStep := crop; capturedImage := imageUrl;
     croppedImage := croppedImage s; enhancedImage := enhancedImage s;
     finalImage := finalImage s; selectedAspectRatio := selectedAspectRatio s;
     processingStep := processingStep s |}.

Definition handleTemplateApplied (templateUrl : string) (s : State) : State :=
  {| currentStep := final; capturedImage := capturedImage s;
     croppedImage := croppedImage s; enhancedImage := enhancedImage s;
     finalImage := templateUrl; selectedAspectRatio := selectedAspectRatio s;
     processingStep := processingStep s |}.

(** [s !== ''] *)
Definition nonEmpty (s : string) : bool := negb (String.eqb s "").

Definition canGoNext (s : State) : bool :=
  match currentStep s with
  | capture => nonEmpty (capturedImage s)
  | crop => nonEmpty (croppedImage s)
  | enhance => nonEmpty (enhancedImage s)
  | templates => nonEmpty (finalImage s)
  | final => true
  end.

Definition canGoPrev (s : State) : bool :=
  negb (WorkflowStep_eqb (currentStep s) capture).

Definition steps : list WorkflowStep := [capture; crop; enhance; templates; final].

(** [Array.prototype.indexOf]: -1 when absent. *)
Fixpoint indexOf_from (i : Z) (l : list WorkflowStep) (w : WorkflowStep) : Z :=
  match l with
  | [] => (-1)%Z
  | v :: l' => if WorkflowStep_eqb v w then i else indexOf_from (i + 1) l' w
  end.

Definition indexOf := indexOf_from 0.

(** [setCurrentStep(steps[i])]; the index is in range wherever the
    source reads it. *)
Definition setCurrentStepAt (i : Z) (s : State) : State :=
  match nth_error steps (Z.to_nat i) with
  | Some w => setCurrentStep w s
  | None => s
  end.

Definition goNext (s : State) : State :=
  let currentIndex := indexOf steps (currentStep s) in
  if (currentIndex <? Z.of_nat (List.length steps) - 1)%Z then
    setCurrentStepAt (currentIndex + 1) s
  else s.

Definition goPrev (s : State) : State :=
  let currentIndex := indexOf steps (currentStep s) in
  if (0 <? currentIndex)%Z then setCurrentStepAt (currentIndex - 1) s
  else s.

Definition resetWorkflow (s : State) : State :=
  {| currentStep := capture; capturedImage := "";
     croppedImage := ""; enhancedImage := ""; finalImage := "";
     selectedAspectRatio := selectedAspectRatio s;
     processingStep := processingStep s |}.

(** The navigation footer: rendered unless the step is [final]; its Next
    button carries [onClick={goNext}] and [disabled={!canGoNext()}].  A
    click on a button that is absent or disabled runs no handler. *)
Record Button := { onClick : State -> State; disabled : bool }.

Definition nextButton (s : State) : option Button :=
  match currentStep s with
  | final => None
  | _ => Some {| onClick := goNext; disabled := negb (canGoNext s) |}
  end.

Definition click (b : option Button) (s : State) : State :=
  match b with
  | Some b => if disabled b then s else onClick b s
  | None => s
  end.

Definition clickNext (s : State) : State := click (nextButton s) s.

(** The artifact that guards the way out of a stage. *)
Definition artifactOf (s : State) : option string :=
  match currentStep s with
  | capture => Some (capturedImage s)
  | crop => Some (croppedImage s)
  | enhance => Some (enhancedImage s)
  | templates => Some (finalImage s)
  | final => None
  end.

End MasterPhotoCapture.

(** ** CVPhotoTemplates: the background templating stage *)
Module CVPhotoTemplates.
Local Open Scope string_scope.
Local Open Scope num_scope.

Inductive Category := professional | creative | formal | modern.

Inductive Background :=
| Solid (color : string)
| Gradient (colors : list string)
| Pattern (style : string).

Inductive Lighting := soft | studio | natural.

Record Effects := {
  blur : option num;
  lighting : option Lighting;
  contrast : option num;
  warmth : option num
}.

Inductive FrameStyle := none | thin | thick | shadow.

Record Frame := { style : FrameStyle; color : option string }.

Record PhotoTemplate := {
  id : string;
  name : string;
  category : Category;
  background : Background;
  effects : option Effects;
  frame : option Frame;
  ratio : num
}.

Definition fx (l : Lighting) (c : Q) (w : option Q) : option Effects :=
  Some {| blur := None; lighting := Some l; contrast := Some (Fin c);
          warmth := option_map Fin w |}.

Definition fr (s : FrameStyle) (c : option string) : option Frame :=
  Some {| style := s; color := c |}.

Definition photoTemplates : list PhotoTemplate := [
  {| id := "professional-white"; name := "Professional White";
     category := professional; background := Solid "#ffffff";
     effects := fx studio 105 None; frame := fr none None;
     ratio := <<4>> / <<6>> |};
  {| id := "professional-gray"; name := "Professional Gray";
     category := professional; background := Solid "#f8f9fa";
     effects := fx soft 102 None; frame := fr thin (Some "#e9ecef");
     ratio := <<4>> / <<6>> |};
  {| id := "corporate-gradient"; name := "Corporate Gradient";
     category := modern; background := Gradient ["#f8f9fa"; "#e9ecef"];
     effects := fx studio 108 None; frame := fr shadow None;
     ratio := <<3>> / <<4>> |};
  {| id := "government-blue"; name := "Government Blue";
     category := formal; background := Solid "#e3f2fd";
     effects := fx natural 100 None; frame := fr thick (Some "#1976d2");
     ratio := <<4>> / <<6>> |};
  {| id := "passport-standard"; name := "Passport Standard";
     category := formal; background := Solid "#ffffff";
     effects := fx natural 100 None; frame := fr none None;
     ratio := <<4>> / <<6>> |};
  {| id := "linkedin-style"; name := "LinkedIn Style";
     category := modern; background := Gradient ["#ffffff"; "#f0f0f0"];
     effects := fx soft 110 (Some 5%Q); frame := fr shadow None;
     ratio := <<4>> / <<5>> |};
  {| id := "startup-modern"; name := "Startup Modern";
     category := modern; background := Gradient ["#f8f9ff"; "#e8f0fe"];
     effects := fx soft 112 (Some 3%Q); frame := fr thin (Some "#6366f1");
     ratio := <<1>> / <<1>> |};
  {| id := "creative-warm"; name := "Creative Warm";
     category := creative; background := Gradient ["#fef7ed"; "#fed7aa"];
     effects := fx soft 108 (Some 10%Q); frame := fr shadow None;
     ratio := <<3>> / <<4>> |};
  {| id := "artistic-minimal"; name := "Artistic Minimal";
     category := creative; background := Gradient ["#fafafa"; "#f5f5f5"];
     effects := fx studio 115 None; frame := fr none None;
     ratio := <<3>> / <<4>> |}
].

(** A decoded image: [img.width] and [img.height]. *)
Record Image := { img_width : Q; img_height : Q }.

Inductive Paint :=
| Color (c : string)
| LinearGradient (x0 y0 x1 y1 : num) (stops : list (num * string)).

Inductive Filter :=
| f_contrast (percent : num)
| f_blur (px : num)
| f_sepia (percent : num).

Inductive CanvasOp :=
| SetFillStyle (p : Paint)
| FillRect (x y w h : num)
| SetFilter (filters : option (list Filter))   (* [None] is 'none' *)
| DrawImage (img : Image) (x y w h : num)
| SetStrokeStyle (c : string)
| SetLineWidth (w : num)
| StrokeRect (x y w h : num)
| SetShadow (c : string) (blur offsetX offsetY : num)
| SetShadowColor (c : string).

Record Canvas := {
  has_context : bool;
  canvas_width : Z;
  canvas_height : Z;
  drawn : list CanvasOp
}.

(** Props and refs of the component; [decode] is what loading [imageUrl]
    into an [Image] comes to ([None]: [onerror] fires), [toBlob] the
    object URL of the encoded canvas ([None]: the blob is null), and
    [parsesAsColor] the colour strings the browser parses as a CSS
    colour. *)
Record Env := {
  imageUrl : string;
  canvasRef : option Canvas;
  decode : string -> option Image;
  toBlob : Canvas -> option string;
  parsesAsColor : string -> bool
}.

Record State := {
  selectedTemplate : string;
  isProcessing : bool;
  previewUrl : string
}.

Definition initialState : State :=
  {| selectedTemplate := ""; isProcessing := false; previewUrl := "" |}.

(** What the [try] block can throw: the missing 2d context, the image
    that does not load, and the exception of [createLinearGradient] or
    [addColorStop]. *)
Inductive Exn := CanvasContextNotAvailable | ImageLoadError | GradientError.

(** What a call does that is seen outside the component: a line on the
    console, the callback of the parent, a notice shown to the user. *)
Inductive Effect :=
| ConsoleError (message : string) (error : Exn)
| OnTemplateApplied (processedUrl : string)
| Notice (message : string).

(** A call of the asynchronous [applyTemplate]: the state and the canvas
    it leaves, its effects, and what the promise it returns is rejected
    with ([None]: the promise is fulfilled). *)
Record Outcome := {
  state : State;
  canvas : option Canvas;
  effects_out : list Effect;
  rejection : option Exn
}.

(** The body of a [try] block either returns or throws; a throw leaves
    the canvas as the statements before it made it. *)
Definition TryBlock (A : Type) : Type := ((Exn * Canvas) + A)%type.
Definition ret {A} (a : A) : TryBlock A := inr a.
Definition throw {A} (e : Exn) (c : Canvas) : TryBlock A := inl (e, c).
Definition bind {A B} (m : TryBlock A) (f : A -> TryBlock B) : TryBlock B :=
  match m with inl e => inl e | inr a => f a end.
Notation "x <- m ;; k" := (bind m (fun x => k))
  (at level 61, m at next level, right associativity).

Definition truthy_opt (o : option num) : bool :=
  match o with Some n => truthy n | None => false end.

Definition gradientStops (colors : list string) : list (num * string) :=
  let n := Fin (inject_Z (Z.of_nat (List.length colors))) - <<1>> in
  map (fun ic => (Fin (inject_Z (Z.of_nat (fst ic))) / n, snd ic))
      (combine (seq 0 (List.length colors)) colors).

(** [gradient.addColorStop(offset, color)] throws unless the offset is a
    number from 0 to 1 and the colour parses. *)
Definition stopAccepted (parses : string -> bool) (stop : num * string) : bool :=
  between <<0>> <<1>> (fst stop) && parses (snd stop).

(** The background is painted without an exception: a gradient needs
    finite end points ([createLinearGradient] throws otherwise) and stops
    that are all accepted. *)
Definition backgroundAccepted (parses : string -> bool)
    (canvasWidth canvasHeight : num) (b : Background) : bool :=
  match b with
  | Gradient colors =>
      isFinite canvasWidth && isFinite canvasHeight
      && forallb (stopAccepted parses) (gradientStops colors)
  | _ => true
  end.

Definition filtersOf (e : Effects) : list Filter :=
  (if truthy_opt (contrast e) then
     match contrast e with Some c => [f_contrast c] | None => [] end else [])
  ++ (if truthy_opt (blur e) then
     match blur e with Some b => [f_blur b] | None => [] end else [])
  ++ (if truthy_opt (warmth e) then
     match warmth e with Some w => [f_sepia w] | None => [] end else []).

Definition maxSize : num := <<800>>.
Definition padding : num := <<40>>.

Definition canvasSize (template : PhotoTemplate) : num * num :=
  if leb <<1>> (ratio template) then (maxSize, maxSize / ratio template)
  else (maxSize * ratio template, maxSize).

(** Everything [applyTemplate] draws once the image is decoded.  The
    canvas is resized (and so cleared) first; an exception while the
    gradient is built leaves it that way. *)
Definition paint (parses : string -> bool) (template : PhotoTemplate)
    (img : Image) : TryBlock Canvas :=
  let '(canvasWidth, canvasHeight) := canvasSize template in
  let resized :=
    {| has_context := true;
       canvas_width := canvasWidthOf canvasWidth;
       canvas_height := canvasHeightOf canvasHeight;
       drawn := [] |} in
  backgroundOps <-
    (match background template with
     | Solid c =>
         ret [SetFillStyle (Color c); FillRect <<0>> <<0>> canvasWidth canvasHeight]
     | Gradient colors =>
         if backgroundAccepted parses canvasWidth canvasHeight (background template)
         then ret [SetFillStyle (LinearGradient <<0>> <<0>> canvasWidth canvasHeight
                                   (gradientStops colors));
                   FillRect <<0>> <<0>> canvasWidth canvasHeight]
         else throw GradientError resized
     | Pattern _ => ret []
     end) ;;
  let availableWidth := canvasWidth - padding * <<2>> in
  let availableHeight := canvasHeight - padding * <<2>> in
  let imgRatio := Fin (img_width img) / Fin (img_height img) in
  let availableRatio := availableWidth / availableHeight in
  let '(imgWidth, imgHeight) :=
    if ltb availableRatio imgRatio then (availableWidth, availableWidth / imgRatio)
    else (availableHeight * imgRatio, availableHeight) in
  let imgX := (canvasWidth - imgWidth) / <<2>> in
  let imgY := (canvasHeight - imgHeight) / <<2>> in
  let filterOps :=
    match effects template with
    | Some e => [SetFilter (Some (filtersOf e))]
    | None => []
    end in
  let frameOps :=
    match frame template with
    | Some f =>
        let stroke := SetStrokeStyle
                        (match color f with Some c => c | None => "#000000" end) in
        match style f with
        | none => []
        | thin =>
            [stroke; SetLineWidth <<2>>;
             StrokeRect <<1>> <<1>> (canvasWidth - <<2>>) (canvasHeight - <<2>>)]
        | thick =>
            [stroke; SetLineWidth <<8>>;
             StrokeRect <<4>> <<4>> (canvasWidth - <<8>>) (canvasHeight - <<8>>)]
        | shadow =>
            [stroke; SetShadow "rgba(0,0,0,0.3)" <<20>> <<5>> <<5>>;
             SetFillStyle (Color "white");
             FillRect <<10>> <<10>> (canvasWidth - <<20>>) (canvasHeight - <<20>>);
             SetShadowColor "transparent"]
        end
    | None => []
    end in
  ret {| has_context := true;
         canvas_width := canvasWidthOf canvasWidth;
         canvas_height := canvasHeightOf canvasHeight;
         drawn := backgroundOps ++ filterOps
                  ++ [DrawImage img imgX imgY imgWidth imgHeight; SetFilter None]
                  ++ frameOps |}.

Section ApplyTemplate.
Variable env : Env.

(** The [try] block up to [canvas.toBlob]. *)
Definition render (template : PhotoTemplate) (c : Canvas) : TryBlock Canvas :=
  _ <- (if has_context c then ret tt else throw CanvasContextNotAvailable c) ;;
  img <- (match decode env (imageUrl env) with
          | Some img => ret img
          | None => throw ImageLoadError c
          end) ;;
  paint (parsesAsColor env) template img.

(** The [catch] block logs and clears [isProcessing]; it does not throw
    again, so the promise of the call is fulfilled on every path. *)
Definition applyTemplate (template : PhotoTemplate) (st : State) : Outcome :=
  match canvasRef env with
  | None => {| state := st; canvas := None; effects_out := []; rejection := None |}
  | Some c =>
      let selected := id template in
      match render template c with
      | inr painted =>
          match toBlob env painted with
          | Some processedUrl =>
              {| state := {| selectedTemplate := selected; isProcessing := false;
                             previewUrl := processedUrl |};
                 canvas := Some painted;
                 effects_out := [OnTemplateApplied processedUrl];
                 rejection := None |}
          | None =>
              {| state := {| selectedTemplate := selected; isProcessing := false;
                             previewUrl := previewUrl st |};
                 canvas := Some painted;
                 effects_out := [];
                 rejection := None |}
          end
      | inl (error, asThrown) =>
          {| state := {| selectedTemplate := selected; isProcessing := false;
                         previewUrl := previewUrl st |};
             canvas := Some asThrown;
             effects_out := [ConsoleError "Error applying template:" error];
             rejection := None |}
      end
  end.

End ApplyTemplate.

(** The callback was invoked. *)
Definition published (o : Outcome) : bool :=
  existsb (fun e => match e with OnTemplateApplied _ => true | _ => false end)
          (effects_out o).

(** The failure went to the console. *)
Definition logged (o : Outcome) : bool :=
  existsb (fun e => match e with ConsoleError _ _ => true | _ => false end)
          (effects_out o).

(** The failure reached the user or the caller: a notice was shown, or
    the promise of the call was rejected. *)
Definition surfaced (o : Outcome) : bool :=
  existsb (fun e => match e with Notice _ => true | _ => false end)
          (effects_out o)
  || match rejection o with Some _ => true | None => false end.

End CVPhotoTemplates.


(** ** Concrete inputs

    The container of the crop tool is 384 px high (class [h-96]) and as
    wide as the layout leaves it; the image fills it. *)
Module Examples.
Import MobileCropTool.
Local Open Scope num_scope.

Definition rectOf (w h : Q) : DOMRect :=
  {| left := 0; top := 0; rect_width := w; rect_height := h |}.

Definition containerOf (w h : Q) : Container :=
  {| boundingClientRect := rectOf w h; clientWidth := w; clientHeight := h |}.

Definition blankCanvas : Canvas :=
  {| has_context := true; canvas_width := 300; canvas_height := 150; drawn := [] |}.

(** A 1280x720 capture shown in a [w] x [h] container. *)
Definition cropEnv (ratio : num) (w h : Q) : Env :=
  {| aspectRatio := ratio;
     containerRef := Some (containerOf w h);
     imageRef := Some {| naturalWidth := 1280; naturalHeight := 720;
                         imgDisplayRect := rectOf w h |};
     canvasRef := Some blankCanvas;
     toBlob := fun _ => Some "blob:cropped"%string |}.

Definition passportEnv : Env := cropEnv (<<4>> / <<6>>) 500 384.
Definition squareEnv : Env := cropEnv <<1>> 500 384.
Definition narrowEnv : Env := cropEnv <<1>> 280 384.

Definition touchAt (a b : Q) : Touch := {| clientX := a; clientY := b |}.

Definition loaded (e : Env) : State := initCropArea e initialState.

(** The region of the end-to-end example of the specification. *)
Definition specRegion : State :=
  setCropData (fun _ =>
    {| x := <<100>>; y := <<50>>; width := <<300>>; height := <<450>>;
       zoom := <<1>>; rotation := 0 |}) initialState.

Definition captured : Image :=
  {| naturalWidth := 1280; naturalHeight := 720; imgDisplayRect := rectOf 500 384 |}.

(** Uploaded files. *)
Definition fileOf (mime : string) (bytes : Z) : EnhancedPhotoCapture.File :=
  {| EnhancedPhotoCapture.type := mime;
     EnhancedPhotoCapture.size := bytes;
     EnhancedPhotoCapture.dataURL := Some "data:;base64,AAAA"%string |}.

(** A template stage whose image decodes, or does not. *)
Definition templateCanvas : CVPhotoTemplates.Canvas :=
  {| CVPhotoTemplates.has_context := true;
     CVPhotoTemplates.canvas_width := 300;
     CVPhotoTemplates.canvas_height := 150;
     CVPhotoTemplates.drawn := [] |}.

Definition templateEnv (decoded : option CVPhotoTemplates.Image)
  : CVPhotoTemplates.Env :=
  {| CVPhotoTemplates.imageUrl := "blob:enhanced"%string;
     CVPhotoTemplates.canvasRef := Some templateCanvas;
     CVPhotoTemplates.decode := fun _ => decoded;
     CVPhotoTemplates.toBlob := fun _ => Some "blob:templated"%string;
     CVPhotoTemplates.parsesAsColor := String.prefix "#" |}.

Definition previewed : CVPhotoTemplates.State :=
  {| CVPhotoTemplates.selectedTemplate := "passport-standard"%string;
     CVPhotoTemplates.isProcessing := false;
     CVPhotoTemplates.previewUrl := "blob:previous"%string |}.

Definition linkedin : CVPhotoTemplates.PhotoTemplate :=
  nth 5 CVPhotoTemplates.photoTemplates
    {| CVPhotoTemplates.id := ""%string; CVPhotoTemplates.name := ""%string;
       CVPhotoTemplates.category := CVPhotoTemplates.modern;
       CVPhotoTemplates.background := CVPhotoTemplates.Solid ""%string;
       CVPhotoTemplates.effects := None; CVPhotoTemplates.frame := None;
       CVPhotoTemplates.ratio := <<1>> |}.

End Examples.

(** ** ImageProcessor: background colour parsing and the image utilities *)
Module ImageProcessor.
Local Open Scope num_scope.

Record RGB := { r : Z; g : Z; b : Z }.

(** The character class [[a-f\d]] under the [i] flag, and the value
    [parseInt(_, 16)] gives each of its characters. *)
Definition hexValue (c : ascii) : option Z :=
  let n := Z.of_N (N_of_ascii c) in
  if ((48 <=? n) && (n <=? 57))%Z then Some (n - 48)%Z
  else if ((97 <=? n) && (n <=? 102))%Z then Some (n - 87)%Z
  else if ((65 <=? n) && (n <=? 70))%Z then Some (n - 55)%Z
  else None.

Definition isHex (c : ascii) : bool :=
  match hexValue c with Some _ => true | None => false end.

(** [/^#?([a-f\d]{2})([a-f\d]{2})([a-f\d]{2})$/i.exec(hex)]: the three
    groups, or [None] for null. *)
Definition hexPattern_exec (hex : string) : option (string * string * string) :=
  let body := match hex with
              | String "#"%char rest => rest
              | _ => hex
              end in
  match list_ascii_of_string body with
  | [c1; c2; c3; c4; c5; c6] =>
      if forallb isHex [c1; c2; c3; c4; c5; c6] then
        Some (string_of_list_ascii [c1; c2],
              string_of_list_ascii [c3; c4],
              string_of_list_ascii [c5; c6])
      else None
  | _ => None
  end.

(** [parseInt(s, 16)] on a string of hexadecimal digits. *)
Definition parseInt16 (s : string) : Z :=
  fold_left (fun acc c =>
               match hexValue c with
               | Some v => (16 * acc + v)%Z
               | None => acc
               end)
            (list_ascii_of_string s) 0%Z.

Definition white : RGB := {| r := 255; g := 255; b := 255 |}.

Definition hexToRgb (hex : string) : RGB :=
  match hexPattern_exec hex with
  | Some (g1, g2, g3) =>
      {| r := parseInt16 g1; g := parseInt16 g2; b := parseInt16 g3 |}
  | None => white
  end.

(** A loaded image: [img.width] and [img.height]. *)
Record Image := { width : Z; height : Z }.

Inductive FilterPart :=
| brightness (percent : num)
| contrast (percent : num)
| saturate (percent : num)
| blur (px : num)
| sepia (percent : num)
| hue_rotate (deg : num).

Inductive CanvasOp :=
| SetSmoothing (quality : string)
| SetFilter (parts : list FilterPart)
| DrawImage (dx dy : num)
| DrawImageScaled (dx dy dw dh : num)
| DrawImageCropped (sx sy sw sh dx dy dw dh : num).

Record Canvas := {
  canvas_width : Z;
  canvas_height : Z;
  drawn : list CanvasOp
}.

(** What a promise comes to.  The promises of this class are built with
    [new Promise((resolve) => ...)]: they resolve from [toBlob]'s
    callback or stay pending. *)
Inductive Promise (A : Type) :=
| Resolved (a : A)
| Rejected
| Pending.
Arguments Resolved {A} a.
Arguments Rejected {A}.
Arguments Pending {A}.

(** The browser: what loading a URL into an [Image] gives ([None]:
    [onload] never fires), whether a fresh canvas hands out a 2d context,
    and the object URL of an encoded canvas ([None]: the blob is null). *)
Record Env := {
  decode : string -> option Image;
  getContext : bool;
  toBlob : Canvas -> string -> num -> option string
}.

Definition dim (z : Z) : num := Fin (inject_Z z).

(** The new dimensions of [resizeImage]. *)
Definition resizedDimensions (width height maxWidth maxHeight : num) : num * num :=
  let '(width, height) :=
    if ltb maxWidth width then (maxWidth, (height * maxWidth) / width)
    else (width, height) in
  if ltb maxHeight height then ((width * maxHeight) / height, maxHeight)
  else (width, height).

(** The crop rectangle of [cropToRatio]: x, y, width, height. *)
Definition ratioCrop (width height ratio : num) : num * num * num * num :=
  let imgRatio := width / height in
  if ltb ratio imgRatio then
    let cropWidth := height * ratio in
    ((width - cropWidth) / <<2>>, <<0>>, cropWidth, height)
  else
    let cropHeight := width / ratio in
    (<<0>>, (height - cropHeight) / <<2>>, width, cropHeight).

Record Filters := {
  f_brightness : option num;
  f_contrast : option num;
  f_saturation : option num;
  f_blur : option num;
  f_sepia : option num;
  f_hue : option num
}.

Definition part (mk : num -> FilterPart) (v : option num) : list FilterPart :=
  match v with Some n => [mk n] | None => [] end.

Definition filterParts (f : Filters) : list FilterPart :=
  part brightness (f_brightness f) ++ part contrast (f_contrast f)
  ++ part saturate (f_saturation f) ++ part blur (f_blur f)
  ++ part sepia (f_sepia f) ++ part hue_rotate (f_hue f).

Section Methods.
Variable env : Env.

(** The tail of each method: [canvas.toBlob] and the [resolve] in its
    callback. *)
Definition encode (c : Canvas) (mime : string) (quality : num) : Promise string :=
  match toBlob env c mime quality with
  | Some url => Resolved url
  | None => Pending
  end.

(** The body of [img.onload] behind a method: nothing happens without
    the image or without a context. *)
Definition whenLoaded (imageUrl : string) (k : Image -> Promise string)
  : Promise string :=
  match decode env imageUrl with
  | Some img => if getContext env then k img else Pending
  | None => Pending
  end.

Definition resizeCanvas (img : Image) (maxWidth maxHeight : num) : Canvas :=
  let '(w, h) := resizedDimensions (dim (width img)) (dim (height img))
                   maxWidth maxHeight in
  {| canvas_width := canvasWidthOf w; canvas_height := canvasHeightOf h;
     drawn := [SetSmoothing "high"; DrawImageScaled <<0>> <<0>> w h] |}.

Definition resizeImage (imageUrl : string) (maxWidth maxHeight quality : num)
  : Promise string :=
  whenLoaded imageUrl (fun img =>
    encode (resizeCanvas img maxWidth maxHeight) "image/jpeg" quality).

Definition convertFormat (imageUrl : string) (format : string) (quality : num)
  : Promise string :=
  whenLoaded imageUrl (fun img =>
    encode {| canvas_width := canvasWidthOf (dim (width img));
              canvas_height := canvasHeightOf (dim (height img));
              drawn := [DrawImage <<0>> <<0>>] |}
           ("image/" ++ format) quality).

Definition cropCanvas (img : Image) (ratio : num) : Canvas :=
  let '(cropX, cropY, cropWidth, cropHeight) :=
    ratioCrop (dim (width img)) (dim (height img)) ratio in
  {| canvas_width := canvasWidthOf cropWidth; canvas_height := canvasHeightOf cropHeight;
     drawn := [DrawImageCropped cropX cropY cropWidth cropHeight
                 <<0>> <<0>> cropWidth cropHeight] |}.

Definition cropToRatio (imageUrl : string) (ratio quality : num) : Promise string :=
  whenLoaded imageUrl (fun img => encode (cropCanvas img ratio) "image/jpeg" quality).

Definition applyFilters (imageUrl : string) (filters : Filters) : Promise string :=
  whenLoaded imageUrl (fun img =>
    encode {| canvas_width := canvasWidthOf (dim (width img));
              canvas_height := canvasHeightOf (dim (height img));
              drawn := [SetFilter (filterParts filters); DrawImage <<0>> <<0>>] |}
           "image/jpeg" <<9#10>>).

End Methods.

End ImageProcessor.

(** ** MasterPhotoCapture: the handlers that run the image utilities *)
Module MasterPhotoCaptureHandlers.
Import MasterPhotoCapture.
Local Open Scope string_scope.
Local Open Scope num_scope.

Inductive Toast :=
| ToastSuccess (message : string)
| ToastError (message : string).

Definition setProcessingStep (m : string) (s : State) : State :=
  {| currentStep := currentStep s; capturedImage := capturedImage s;
     croppedImage := croppedImage s; enhancedImage := enhancedImage s;
     finalImage := finalImage s; selectedAspectRatio := selectedAspectRatio s;
     processingStep := m |}.

Definition cropped (url : string) (s : State) : State :=
  {| currentStep := enhance; capturedImage := capturedImage s;
     croppedImage := url; enhancedImage := enhancedImage s;
     finalImage := finalImage s; selectedAspectRatio := selectedAspectRatio s;
     processingStep := processingStep s |}.

Definition enhanced (url : string) (s : State) : State :=
  {| currentStep := templates; capturedImage := capturedImage s;
     croppedImage := croppedImage s; enhancedImage := url;
     finalImage := finalImage s; selectedAspectRatio := selectedAspectRatio s;
     processingStep := processingStep s |}.

(** [try { url = await p; onDone } catch { onError } finally { clear }]
    around a promise: a pending promise never comes back, so nothing
    after the [await] runs. *)
Definition awaiting (p : ImageProcessor.Promise string) (working : State)
    (done : string -> State -> State) (success failure : string)
  : State * list Toast :=
  match p with
  | ImageProcessor.Resolved url =>
      (setProcessingStep "" (done url working), [ToastSuccess success])
  | ImageProcessor.Rejected =>
      (setProcessingStep "" working, [ToastError failure])
  | ImageProcessor.Pending => (working, [])
  end.

Definition autoEnhance : ImageProcessor.Filters :=
  {| ImageProcessor.f_brightness := Some <<105>>;
     ImageProcessor.f_contrast := Some <<108>>;
     ImageProcessor.f_saturation := Some <<95>>;
     ImageProcessor.f_blur := Some <<0>>;
     ImageProcessor.f_sepia := None;
     ImageProcessor.f_hue := None |}.

Section Handlers.
Variable env : ImageProcessor.Env.

Definition handleCropComplete (croppedUrl : string) (s : State)
  : State * list Toast :=
  awaiting (ImageProcessor.resizeImage env croppedUrl <<800>> <<1200>> <<9#10>>)
    (setProcessingStep "Optimizing image..." s)
    cropped "Photo cropped! Apply enhancements." "Error processing image".

Definition handleEnhanceComplete (enhancedUrl : string) (s : State)
  : State * list Toast :=
  awaiting (ImageProcessor.applyFilters env enhancedUrl autoEnhance)
    (setProcessingStep "Applying background removal..." s)
    enhanced "Photo enhanced! Choose a professional template."
    "Error enhancing image".

End Handlers.

(** [setEnhancedImage] *)
Definition setEnhancedImage (url : string) (s : State) : State :=
  {| currentStep := currentStep s; capturedImage := capturedImage s;
     croppedImage := croppedImage s; enhancedImage := url;
     finalImage := finalImage s; selectedAspectRatio := selectedAspectRatio s;
     processingStep := processingStep s |}.

(** The hidden [BackgroundRemoval] is mounted while [enhancedImage] is
    not empty.  Its [onProcessed] prop is a new function at every render
    of the workflow, so its effect runs [removeBackground] again after
    each of them, and every run that ends with a blob calls
    [onProcessed]: the workflow's [setEnhancedImage]. *)
Definition onProcessed (url : string) (s : State) : State :=
  setEnhancedImage url s.

(** What moves the workflow between the steps: the footer, the handlers,
    and a run of the background removal that comes back in between. *)
Inductive Nav := Next | Prev | PressNext | BackgroundProcessed (url : string).

Definition navigate (s : State) (n : Nav) : State :=
  match n with
  | Next => goNext s
  | Prev => goPrev s
  | PressNext => clickNext s
  | BackgroundProcessed url => onProcessed url s
  end.

(** The state after the callbacks of a series of runs. *)
Definition deliveries (urls : list string) (s : State) : State :=
  fold_left navigate (map BackgroundProcessed urls) s.

(** The URLs the background removal delivered in a sequence of moves. *)
Definition delivered (moves : list Nav) : list string :=
  flat_map (fun n => match n with BackgroundProcessed url => [url] | _ => [] end)
           moves.

Definition artifacts (s : State) : string * string * string * string :=
  (capturedImage s, croppedImage s, enhancedImage s, finalImage s).

End MasterPhotoCaptureHandlers.

(** ** EnhancedPhotoCapture: its own crop and background steps *)
Module EnhancedPhotoEditor.
Local Open Scope string_scope.
Local Open Scope num_scope.

Record CropArea := { x : num; y : num; width : num; height : num }.

Record Point := { px : num; py : num }.

Record MouseEvent := { clientX : Q; clientY : Q }.

Record DOMRect := { left : Q; top : Q; rect_width : Q; rect_height : Q }.

(** The [<img>] behind [imageRef]: where it is shown, its layout size
    ([img.width], [img.height]) and its natural size. *)
Record ImageElement := {
  boundingClientRect : DOMRect;
  img_width : Z;
  img_height : Z;
  naturalWidth : Z;
  naturalHeight : Z
}.

Inductive Paint :=
| Color (c : string)
| LinearGradient (x0 y0 x1 y1 : num) (stops : list (num * string)).

Inductive CanvasOp :=
| DrawImageCropped (sx sy sw sh dx dy dw dh : num)
| SetFillStyle (p : Paint)
| FillRect (x y w h : num)
| DrawImageScaled (dx dy dw dh : num).

Record Canvas := {
  has_context : bool;
  canvas_width : Z;
  canvas_height : Z;
  drawn : list CanvasOp
}.

Record Template := { id : string; name : string; color : string }.

Definition photoTemplates : list Template := [
  {| id := "white"; name := "White Background"; color := "#ffffff" |};
  {| id := "gray"; name := "Gray Background"; color := "#f5f5f5" |};
  {| id := "blue"; name := "Blue Background"; color := "#e8f4fd" |};
  {| id := "gradient"; name := "Gray Gradient";
     color := "linear-gradient(135deg, #f5f5f5 0%, #e0e0e0 100%)" |}
].

(** Refs and browser: [decode] gives the natural size of the image
    behind a URL ([None]: [onload] never fires). *)
Record Env := {
  imageRef : option ImageElement;
  canvasRef : option Canvas;
  decode : string -> option (Z * Z);
  toBlob : Canvas -> option string
}.

Record State := {
  cropArea : CropArea;
  isDragging : bool;
  dragStart : Point;
  editedImage : option string;
  selectedTemplate : string;
  currentStep : EnhancedPhotoCapture.Step
}.

Definition initialState : State := {|
  cropArea := {| x := <<0>>; y := <<0>>; width := <<300>>; height := <<400>> |};
  isDragging := false;
  dragStart := {| px := <<0>>; py := <<0>> |};
  editedImage := None;
  selectedTemplate := "white";
  currentStep := EnhancedPhotoCapture.step_capture
|}.

Definition setCropArea (f : CropArea -> CropArea) (s : State) : State :=
  {| cropArea := f (cropArea s); isDragging := isDragging s;
     dragStart := dragStart s; editedImage := editedImage s;
     selectedTemplate := selectedTemplate s; currentStep := currentStep s |}.

Definition setIsDragging (d : bool) (s : State) : State :=
  {| cropArea := cropArea s; isDragging := d;
     dragStart := dragStart s; editedImage := editedImage s;
     selectedTemplate := selectedTemplate s; currentStep := currentStep s |}.

Definition setDragStart (p : Point) (s : State) : State :=
  {| cropArea := cropArea s; isDragging := isDragging s;
     dragStart := p; editedImage := editedImage s;
     selectedTemplate := selectedTemplate s; currentStep := currentStep s |}.

Definition setEditedImage (u : option string) (s : State) : State :=
  {| cropArea := cropArea s; isDragging := isDragging s;
     dragStart := dragStart s; editedImage := u;
     selectedTemplate := selectedTemplate s; currentStep := currentStep s |}.

Definition setSelectedTemplate (t : string) (s : State) : State :=
  {| cropArea := cropArea s; isDragging := isDragging s;
     dragStart := dragStart s; editedImage := editedImage s;
     selectedTemplate := t; currentStep := currentStep s |}.

Definition setCurrentStep (w : EnhancedPhotoCapture.Step) (s : State) : State :=
  {| cropArea := cropArea s; isDragging := isDragging s;
     dragStart := dragStart s; editedImage := editedImage s;
     selectedTemplate := selectedTemplate s; currentStep := w |}.

Section Handlers.
Variable env : Env.

Definition handleCropMouseDown (e : MouseEvent) (s : State) : State :=
  match imageRef env with
  | None => s
  | Some img =>
      let rect := boundingClientRect img in
      let mx := Fin (clientX e) - Fin (left rect) in
      let my := Fin (clientY e) - Fin (top rect) in
      setDragStart {| px := mx - x (cropArea s); py := my - y (cropArea s) |}
        (setIsDragging true s)
  end.

Definition handleCropMouseMove (e : MouseEvent) (s : State) : State :=
  match isDragging s, imageRef env with
  | true, Some img =>
      let rect := boundingClientRect img in
      let mx := Fin (clientX e) - Fin (left rect) in
      let my := Fin (clientY e) - Fin (top rect) in
      setCropArea (fun prev =>
        {| x := Math_max <<0>> (Math_min (mx - px (dragStart s))
                                  (Fin (rect_width rect) - width prev));
           y := Math_max <<0>> (Math_min (my - py (dragStart s))
                                  (Fin (rect_height rect) - height prev));
           width := width prev; height := height prev |}) s
  | _, _ => s
  end.

Definition handleCropMouseUp (s : State) : State := setIsDragging false s.

(** [applyCrop]: the canvas takes the size of the crop area in image
    pixels, and the destination rectangle is read back from the canvas. *)
Definition applyCrop (s : State) : option Canvas * State :=
  match imageRef env, canvasRef env with
  | Some img, Some canvas =>
      if has_context canvas then
        let scaleX := Fin (inject_Z (naturalWidth img)) / Fin (inject_Z (img_width img)) in
        let scaleY := Fin (inject_Z (naturalHeight img)) / Fin (inject_Z (img_height img)) in
        let a := cropArea s in
        let cw := canvasWidthOf (width a * scaleX) in
        let ch := canvasHeightOf (height a * scaleY) in
        let painted := {|
          has_context := true; canvas_width := cw; canvas_height := ch;
          drawn := [DrawImageCropped (x a * scaleX) (y a * scaleY)
                      (width a * scaleX) (height a * scaleY)
                      <<0>> <<0>> (Fin (inject_Z cw)) (Fin (inject_Z ch))] |} in
        match toBlob env painted with
        | Some croppedUrl =>
            (Some painted,
             setCurrentStep EnhancedPhotoCapture.step_enhance
               (setEditedImage (Some croppedUrl) s))
        | None => (Some painted, s)
        end
      else (None, s)
  | _, _ => (None, s)
  end.

(** [photoTemplates.find(t => t.id === templateId)] *)
Definition findTemplate (templateId : string) : option Template :=
  find (fun t => String.eqb (id t) templateId) photoTemplates.

Definition padding : Z := 20.

(** What [img.onload] of [applyTemplate] draws. *)
Definition framed (template : Template) (w h : Z) : Canvas :=
  let cw := canvasWidthOf (Fin (inject_Z w) + Fin (inject_Z padding) * <<2>>) in
  let ch := canvasHeightOf (Fin (inject_Z h) + Fin (inject_Z padding) * <<2>>) in
  let fill :=
    if String.eqb (id template) "gradient" then
      LinearGradient <<0>> <<0>> (Fin (inject_Z cw)) (Fin (inject_Z ch))
        [(<<0>>, "#f5f5f5"); (<<1>>, "#e0e0e0")]
    else Color (color template) in
  {| has_context := true; canvas_width := cw; canvas_height := ch;
     drawn := [SetFillStyle fill;
               FillRect <<0>> <<0>> (Fin (inject_Z cw)) (Fin (inject_Z ch));
               DrawImageScaled (Fin (inject_Z padding)) (Fin (inject_Z padding))
                 (Fin (inject_Z w)) (Fin (inject_Z h))] |}.

Definition applyTemplate (templateId : string) (s : State) : option Canvas * State :=
  match canvasRef env, editedImage s with
  | Some canvas, Some edited =>
      if String.eqb edited "" then (Some canvas, s)
      else if has_context canvas then
        match findTemplate templateId with
        | None => (Some canvas, s)
        | Some template =>
            let selected := setSelectedTemplate templateId s in
            match decode env edited with
            | None => (Some canvas, selected)
            | Some (w, h) =>
                let painted := framed template w h in
                match toBlob env painted with
                | Some finalUrl => (Some painted, setEditedImage (Some finalUrl) selected)
                | None => (Some painted, selected)
                end
            end
        end
      else (Some canvas, s)
  | c, _ => (c, s)
  end.

End Handlers.

Definition within (imageWidth imageHeight : num) (a : CropArea) : bool :=
  leb <<0>> (x a) && leb <<0>> (y a)
  && leb (x a + width a) imageWidth
  && leb (y a + height a) imageHeight.

(** What the mouse handlers keep: the area within the image and a
    finite drag origin. *)
Definition editorInvariant (imageWidth imageHeight : num) (s : State) : Prop :=
  within imageWidth imageHeight (cropArea s) = true
  /\ finite (px (dragStart s)) /\ finite (py (dragStart s)).

Inductive Mouse := Down (e : MouseEvent) | Move (e : MouseEvent) | Up.

Definition mouse (env : Env) (s : State) (m : Mouse) : State :=
  match m with
  | Down e => handleCropMouseDown env e s
  | Move e => handleCropMouseMove env e s
  | Up => handleCropMouseUp s
  end.

End EnhancedPhotoEditor.

(** ** CVPhotoTemplates: the grouping of the catalogue *)
Module CVPhotoTemplatesView.
Import CVPhotoTemplates.

Definition Category_eqb (a b : Category) : bool :=
  match a, b with
  | professional, professional | creative, creative
  | formal, formal | modern, modern => true
  | _, _ => false
  end.

(** [if (!acc[c]) acc[c] = []; acc[c].push(t)] on an object whose keys
    keep their insertion order. *)
Fixpoint push (c : Category) (t : PhotoTemplate)
    (acc : list (Category * list PhotoTemplate))
  : list (Category * list PhotoTemplate) :=
  match acc with
  | [] => [(c, [t])]
  | (c', ts) :: rest =>
      if Category_eqb c' c then (c', ts ++ [t]) :: rest
      else (c', ts) :: push c t rest
  end.

Definition groupInto (acc : list (Category * list PhotoTemplate))
    (l : list PhotoTemplate) : list (Category * list PhotoTemplate) :=
  fold_left (fun acc t => push (category t) t acc) l acc.

Definition templatesByCategory (l : list PhotoTemplate)
  : list (Category * list PhotoTemplate) := groupInto [] l.

(** [acc[c]] *)
Fixpoint lookup (c : Category) (acc : list (Category * list PhotoTemplate))
  : option (list PhotoTemplate) :=
  match acc with
  | [] => None
  | (c', ts) :: rest => if Category_eqb c' c then Some ts else lookup c rest
  end.

Definition ofCategory (c : Category) (l : list PhotoTemplate) : list PhotoTemplate :=
  filter (fun t => Category_eqb (category t) c) l.

(** The rectangles images were drawn into, and the rectangles filled
    after the first image was drawn. *)
Definition imageRects (cv : Canvas) : list (num * num * num * num) :=
  flat_map (fun op =>
    match op with
    | DrawImage _ x y w h => [(x, y, w, h)]
    | _ => []
    end) (drawn cv).

Fixpoint afterImage (ops : list CanvasOp) : list CanvasOp :=
  match ops with
  | [] => []
  | DrawImage _ _ _ _ _ :: rest => rest
  | _ :: rest => afterImage rest
  end.

Definition fillsOverImage (cv : Canvas) : list (num * num * num * num) :=
  flat_map (fun op =>
    match op with
    | FillRect x y w h => [(x, y, w, h)]
    | _ => []
    end) (afterImage (drawn cv)).

End CVPhotoTemplatesView.

(** ** The home page: backup of the user's data across sign-out *)
Module HomePage.
Local Open Scope string_scope.

(** [localStorage]: a string, or null, under every key. *)
Definition Storage : Type := string -> option string.

Definition getItem (k : string) (ls : Storage) : option string := ls k.

Definition setItem (k v : string) (ls : Storage) : Storage :=
  fun k' => if String.eqb k' k then Some v else ls k'.

Definition removeItem (k : string) (ls : Storage) : Storage :=
  fun k' => if String.eqb k' k then None else ls k'.

(** The object that is backed up. *)
Record Backup := {
  currentCV : option string;
  activeTab : option string;
  aiChatHistory : option string;
  selectedTemplate : option string;
  backupTimestamp : string
}.

(** Truthiness of a value that is a string or null. *)
Definition truthy (v : option string) : bool :=
  match v with
  | Some s => negb (String.eqb s "")
  | None => false
  end.

Definition backupKey (userEmail : string) : string := "user_backup_" ++ userEmail.

(** The session of [useSession]; [emailOf] is [session?.user?.email]. *)
Record Session := { user_email : option string }.

Definition emailOf (session : option Session) : option string :=
  match session with
  | Some se => user_email se
  | None => None
  end.

Section Handlers.

(** [JSON.stringify] on a backup, and [JSON.parse] on a stored string
    ([None] when it throws). *)
Variable stringify : Backup -> string.
Variable parse : string -> option Backup.

(** [if (v) localStorage.setItem(k, v)] *)
Definition restore (k : string) (v : option string) (ls : Storage) : Storage :=
  match v with
  | Some s => if truthy v then setItem k s ls else ls
  | None => ls
  end.

(** The same, unless the key already holds something. *)
Definition restoreIfMissing (k : string) (v : option string) (ls : Storage)
  : Storage :=
  if truthy (getItem k ls) then ls else restore k v ls.

(** [handleLogout], with the user's e-mail of the session and the
    time stamp of the moment: the storage afterwards. *)
Definition handleLogout (userEmail : option string) (now : string)
    (ls : Storage) : Storage :=
  let backedUp :=
    match userEmail with
    | Some email =>
        if truthy userEmail then
          let dataToBackup :=
            {| currentCV := getItem "currentCV" ls;
               activeTab := getItem "activeTab" ls;
               aiChatHistory := getItem "aiChatHistory" ls;
               selectedTemplate := getItem "selectedTemplate" ls;
               backupTimestamp := now |} in
          let hasData :=
            existsb truthy
              [currentCV dataToBackup; activeTab dataToBackup;
               aiChatHistory dataToBackup; selectedTemplate dataToBackup;
               Some (backupTimestamp dataToBackup)] in
          if hasData then setItem (backupKey email) (stringify dataToBackup) ls
          else ls
        else ls
    | None => ls
    end in
  removeItem "isLoggedIn" backedUp.

(** [handleLogin], closed over the session of the render that made it:
    every field of the backup that holds something is written back. *)
Definition handleLogin (session : option Session) (ls : Storage) : Storage :=
  let ls := setItem "isLoggedIn" "true" ls in
  let userEmail := emailOf session in
  match userEmail with
  | Some email =>
      if truthy userEmail then
        let savedData := getItem (backupKey email) ls in
        match savedData with
        | Some saved =>
            if truthy savedData then
              match parse saved with
              | Some parsedData =>
                  restore "selectedTemplate" (selectedTemplate parsedData)
                    (restore "aiChatHistory" (aiChatHistory parsedData)
                       (restore "activeTab" (activeTab parsedData)
                          (restore "currentCV" (currentCV parsedData) ls)))
              | None => ls
              end
            else ls
        | None => ls
        end
      else ls
  | None => ls
  end.

(** The effect that runs when a session appears: the CV and the chat
    history are written back only where the storage holds none. *)
Definition autoRestore (userEmail : option string) (ls : Storage) : Storage :=
  let ls := setItem "isLoggedIn" "true" ls in
  match userEmail with
  | Some email =>
      if truthy userEmail then
        let savedData := getItem (backupKey email) ls in
        match savedData with
        | Some saved =>
            if truthy savedData then
              match parse saved with
              | Some parsedData =>
                  restore "selectedTemplate" (selectedTemplate parsedData)
                    (restoreIfMissing "aiChatHistory" (aiChatHistory parsedData)
                       (restore "activeTab" (activeTab parsedData)
                          (restoreIfMissing "currentCV" (currentCV parsedData) ls)))
              | None => ls
              end
            else ls
        | None => ls
        end
      else ls
  | None => ls
  end.

(** What the page renders, with the handlers it hands down: the sign-in
    page only while nobody is logged in and there is no session. *)
Inductive View :=
| Spinner
| AuthPage (onLogin : Storage -> Storage)
| DashboardPage (onLogout : string -> Storage -> Storage).

Definition render (loading isLoggedIn : bool) (session : option Session) : View :=
  if loading then Spinner
  else if negb isLoggedIn && match session with None => true | Some _ => false end
  then AuthPage (handleLogin session)
  else DashboardPage (handleLogout (emailOf session)).

End Handlers.

(** The backup as [handleLogout] takes it. *)
Definition snapshot (now : string) (ls : Storage) : Backup :=
  {| currentCV := getItem "currentCV" ls;
     activeTab := getItem "activeTab" ls;
     aiChatHistory := getItem "aiChatHistory" ls;
     selectedTemplate := getItem "selectedTemplate" ls;
     backupTimestamp := now |}.

(** The keys that are backed up. *)
Definition backedUpKeys : list string :=
  ["currentCV"; "activeTab"; "aiChatHistory"; "selectedTemplate"].

(** A storage for concrete runs, and a serialization of backups for
    them: the fields one per line, each marked present or absent. *)
Definition emptyStorage : Storage := fun _ => None.

Definition field (v : option string) : string :=
  match v with
  | Some s => "+" ++ s
  | None => "-"
  end.

Definition unfield (s : string) : option (option string) :=
  match s with
  | String "+"%char rest => Some (Some rest)
  | String "-"%char EmptyString => Some None
  | _ => None
  end.

Definition newline : ascii := "010"%char.

Fixpoint splitLines (s cur : string) : list string :=
  match s with
  | EmptyString => [cur]
  | String c rest =>
      if Ascii.eqb c newline then cur :: splitLines rest EmptyString
      else splitLines rest (cur ++ String c EmptyString)
  end.

Definition stringifyLines (b : Backup) : string :=
  field (currentCV b) ++ String newline
    (field (activeTab b) ++ String newline
       (field (aiChatHistory b) ++ String newline
          (field (selectedTemplate b) ++ String newline (backupTimestamp b)))).

Definition parseLines (s : string) : option Backup :=
  match splitLines s EmptyString with
  | [l1; l2; l3; l4; l5] =>
      match unfield l1, unfield l2, unfield l3, unfield l4 with
      | Some a, Some b, Some c, Some d =>
          Some {| currentCV := a; activeTab := b; aiChatHistory := c;
                  selectedTemplate := d; backupTimestamp := l5 |}
      | _, _, _, _ => None
      end
  | _ => None
  end.

(** A browser in which a CV was written and a template chosen. *)
Definition usedStorage : Storage :=
  setItem "selectedTemplate" "modern"
    (setItem "currentCV" "{name:Ani}" (setItem "isLoggedIn" "true" emptyStorage)).

End HomePage.

(** ** More concrete inputs *)
Module EditorExamples.
Import EnhancedPhotoEditor.

(** A 1200 x 1600 photo shown at 600 x 800. *)
Definition shown : ImageElement :=
  {| boundingClientRect := {| left := 10; top := 20; rect_width := 600; rect_height := 800 |};
     img_width := 600; img_height := 800;
     naturalWidth := 1200; naturalHeight := 1600 |}.

Definition blank : Canvas :=
  {| has_context := true; canvas_width := 300; canvas_height := 150; drawn := [] |}.

Definition editorEnv : Env :=
  {| imageRef := Some shown; canvasRef := Some blank;
     decode := fun _ => Some (600, 800)%Z;
     toBlob := fun _ => Some "blob:edited"%string |}.

Definition at_ (a b : Q) : MouseEvent := {| clientX := a; clientY := b |}.

Definition cropped : State :=
  setEditedImage (Some "blob:crop"%string) initialState.

Definition blue : Template :=
  {| id := "blue"; name := "Blue Background"; color := "#e8f4fd" |}.

End EditorExamples.

(** * Properties *)

(** ** Facts about numbers *)
Section NumFacts.
Local Open Scope Q_scope.

Lemma Qle_bool_false (a b : Q) : Qle_bool a b = false -> b < a.
Proof.
  intros H. apply Qnot_le_lt. intros Hle.
  apply Qle_bool_iff in Hle. congruence.
Qed.

Lemma Qeq_bool_false (a b : Q) : Qeq_bool a b = false -> ~ a == b.
Proof. intros H He. apply Qeq_bool_iff in He. congruence. Qed.

Lemma leb_Fin (a b : Q) : leb (Fin a) (Fin b) = true <-> a <= b.
Proof. apply Qle_bool_iff. Qed.

Lemma leb_Fin_intro (a b : Q) : a <= b -> leb (Fin a) (Fin b) = true.
Proof. apply leb_Fin. Qed.

End NumFacts.

(** Turns the boolean comparisons among the hypotheses into facts that
    [lra] reads. *)
Ltac qfacts :=
  repeat match goal with
  | H : Qle_bool _ _ = true |- _ => apply Qle_bool_iff in H
  | H : Qle_bool _ _ = false |- _ => apply Qle_bool_false in H
  | H : Qeq_bool _ _ = true |- _ => apply Qeq_bool_iff in H
  | H : Qeq_bool _ _ = false |- _ => apply Qeq_bool_false in H
  | H : leb (Fin _) (Fin _) = true |- _ => apply leb_Fin in H
  end.

(** Splits on every comparison the goal branches on. *)
Ltac qcases :=
  repeat match goal with
  | |- context [Qle_bool ?a ?b] =>
      let E := fresh "E" in destruct (Qle_bool a b) eqn:E
  | |- context [Qeq_bool ?a ?b] =>
      let E := fresh "E" in destruct (Qeq_bool a b) eqn:E
  end.

(** Closes a goal made of comparisons once the case split is done. *)
Ltac qgoal :=
  repeat rewrite andb_true_iff; repeat split;
  try reflexivity;
  try match goal with
      | |- Qle_bool _ _ = true => apply Qle_bool_iff
      | |- leb (Fin _) (Fin _) = true => apply leb_Fin
      end;
  try lra.

Ltac qauto := cbn; qcases; cbn; qcases; qfacts; qgoal.

Section NumClamp.
Local Open Scope Q_scope.

(** [Math.max(lo, Math.min(hi, v))] lands in [lo, hi] unless [v] is
    [NaN]. *)
Lemma clamp_between (lo hi : Q) (v : num) :
  lo <= hi -> v <> NaN ->
  between (Fin lo) (Fin hi) (Math_max (Fin lo) (Math_min (Fin hi) v)) = true.
Proof.
  intros Hlh Hv. unfold between.
  destruct v as [| | |q]; try congruence; qauto.
Qed.

(** The clamp of a drag: the new origin is finite and not negative, and
    the region ends inside the container as soon as some origin allowed
    it to. *)
Lemma drag_clamp (p cw cw' : Q) (w x0 : num) :
  cw' == cw ->
  leb (Fin 0) x0 = true ->
  leb (add x0 w) (Fin cw) = true ->
  exists r,
    Math_max (Fin 0) (Math_min (Fin p) (sub (Fin cw') w)) = Fin r
    /\ 0 <= r
    /\ leb (add (Fin r) w) (Fin cw) = true.
Proof.
  intros Hcw H0 Hfit.
  destruct x0 as [| | |a]; try discriminate;
    destruct w as [| | |b]; try discriminate; cbn in *;
    qcases; eexists; (split; [reflexivity|]); cbn; qfacts; qgoal.
Qed.

End NumClamp.

(** ** The crop controller *)
Section CropRegion.
Import MobileCropTool.
Local Open Scope Q_scope.

Variable Math_sqrt : Q -> Q.
Variable env : Env.
Variable c : Container.
Hypothesis Hc : containerRef env = Some c.
Hypothesis Hw : clientWidth c == rect_width (boundingClientRect c).
Hypothesis Hh : clientHeight c == rect_height (boundingClientRect c).

Local Abbreviation cW := (Fin (clientWidth c)).
Local Abbreviation cH := (Fin (clientHeight c)).

Lemma inside_origin_finite (cw ch : Q) (d : CropData) :
  inside (Fin cw) (Fin ch) d = true -> finite (x d) /\ finite (y d).
Proof.
  unfold inside. rewrite !andb_true_iff. intros [[[Hx Hy] Hxw] Hyh].
  split.
  - destruct (x d) as [| | |a]; try discriminate; [|now exists a].
    destruct (width d); discriminate.
  - destruct (y d) as [| | |a]; try discriminate; [|now exists a].
    destruct (height d); discriminate.
Qed.

Lemma getTouchPosition_finite (t : Touch) :
  getTouchPosition env t
  = {| tp_x := Fin (clientX t - left (boundingClientRect c));
       tp_y := Fin (clientY t - top (boundingClientRect c)) |}.
Proof. unfold getTouchPosition. now rewrite Hc. Qed.

Lemma containerClientWidth_eq :
  exists cw', containerClientWidth env = Fin cw' /\ cw' == clientWidth c.
Proof.
  unfold containerClientWidth, or_else, truthy. rewrite Hc.
  destruct (Qeq_bool (clientWidth c) 0) eqn:E; cbn; eexists; split;
    try reflexivity; qfacts; lra.
Qed.

Lemma containerClientHeight_eq :
  exists ch', containerClientHeight env = Fin ch' /\ ch' == clientHeight c.
Proof.
  unfold containerClientHeight, or_else, truthy. rewrite Hc.
  destruct (Qeq_bool (clientHeight c) 0) eqn:E; cbn; eexists; split;
    try reflexivity; qfacts; lra.
Qed.

(** A drag move puts the region inside the container it already fitted
    in, wherever the pointer goes. *)
Lemma drag_inside (px py cw' ch' : Q) (d : CropData) :
  cw' == clientWidth c -> ch' == clientHeight c ->
  inside cW cH d = true ->
  inside cW cH
    (with_xy (Math_max (Fin 0) (Math_min (Fin px) (sub (Fin cw') (width d))))
             (Math_max (Fin 0) (Math_min (Fin py) (sub (Fin ch') (height d))))
             d) = true.
Proof.
  intros Hcw Hch. unfold inside. rewrite !andb_true_iff.
  intros [[[Hx Hy] Hxw] Hyh]. cbn [x y width height with_xy].
  destruct (drag_clamp px _ _ _ _ Hcw Hx Hxw) as (rx & -> & Hrx & Hrxw).
  destruct (drag_clamp py _ _ _ _ Hch Hy Hyh) as (ry & -> & Hry & Hryh).
  repeat split; trivial; now apply leb_Fin_intro.
Qed.

Lemma anchor_finite (p : Q) (a : num) : finite a -> finite (sub (Fin p) a).
Proof. intros [q ->]. now eexists. Qed.

(** Every operation but reset keeps the invariant. *)
Lemma step_invariant (s : State) (e : Event) :
  e <> ResetCrop ->
  invariant cW cH s -> invariant cW cH (step Math_sqrt env s e).
Proof.
  intros Hne [Hin [Hdx Hdy]].
  destruct (inside_origin_finite _ _ _ Hin) as [Hfx Hfy].
  destruct e as [t|t|t|m|m| | | | |]; cbn [step]; try congruence.
  - (* touch start *)
    unfold handleTouchStart.
    destruct t as [|t1 [|t2 [|t3 t]]]; cbn; try (split; [assumption|split; assumption]).
    rewrite getTouchPosition_finite; cbn.
    split; [assumption|]. split; now apply anchor_finite.
  - (* touch move *)
    unfold handleTouchMove.
    destruct t as [|t1 [|t2 [|t3 t]]]; try (split; [assumption|split; assumption]).
    + destruct (isDragging s && negb (isPinching s))%bool;
        [|split; [assumption|split; assumption]].
      rewrite getTouchPosition_finite; cbn.
      destruct Hdx as [dx Hdx], Hdy as [dy Hdy].
      destruct containerClientWidth_eq as (cw' & -> & Hcw).
      destruct containerClientHeight_eq as (ch' & -> & Hch).
      split; [|split; [now exists dx|now exists dy]].
      rewrite Hdx, Hdy. cbn [sub]. now apply drag_inside.
    + destruct (isPinching s); split; try assumption; split; assumption.
  - (* touch end *)
    unfold handleTouchEnd.
    destruct t as [|t1 [|t2 t]]; cbn; try (split; [assumption|split; assumption]).
    destruct (isPinching s); [|split; [assumption|split; assumption]].
    rewrite getTouchPosition_finite; cbn.
    split; [assumption|]. split; now apply anchor_finite.
  - (* mouse down *)
    unfold handleMouseDown. rewrite Hc. cbn.
    split; [assumption|].
    destruct Hfx as [a ->], Hfy as [b ->]. split; now eexists.
  - (* mouse move *)
    unfold handleMouseMove. rewrite Hc.
    destruct (isDragging s); [|split; [assumption|split; assumption]].
    destruct Hdx as [dx Hdx], Hdy as [dy Hdy].
    split; [|split; [now exists dx|now exists dy]].
    cbn. rewrite Hdx, Hdy. cbn [sub].
    apply drag_inside; trivial; lra.
  - split; [assumption|split; assumption].
  - split; [assumption|split; assumption].
  - split; [assumption|split; assumption].
  - split; [assumption|split; assumption].
Qed.

(** Reset keeps it when the region it installs is inside. *)
Lemma reset_invariant (s : State) :
  inside cW cH (cropData (resetCrop env s)) = true ->
  invariant cW cH s -> invariant cW cH (resetCrop env s).
Proof. intros Hr [_ Ha]. split; assumption. Qed.

Lemma resetCrop_region (s s' : State) :
  cropData (resetCrop env s) = cropData (resetCrop env s').
Proof. reflexivity. Qed.

Lemma Event_eq_reset (e : Event) : {e = ResetCrop} + {e <> ResetCrop}.
Proof. destruct e; (now left) || (right; discriminate). Qed.

Lemma run_invariant (events : list Event) (s : State) :
  (In ResetCrop events -> inside cW cH (cropData (resetCrop env s)) = true) ->
  invariant cW cH s -> invariant cW cH (run Math_sqrt env events s).
Proof.
  revert s. induction events as [|e events IH]; intros s Hreset Hinv.
  - exact Hinv.
  - cbn [run fold_left]. apply IH.
    + intros Hin. rewrite (resetCrop_region _ s). apply Hreset. now right.
    + destruct (Event_eq_reset e) as [->|Hne].
      * apply reset_invariant; trivial. apply Hreset. now left.
      * now apply step_invariant.
Qed.

End CropRegion.

Section CropClaims.
Import MobileCropTool Examples.
Local Open Scope Q_scope.

(** What the clamps of the drag handlers do achieve.  Where the client
    size of the container is the size of its bounding rectangle, a region
    that lies inside the container stays inside under every drag move
    (touch or mouse), pinch move, zoom-in, zoom-out and rotate; so does
    every region reached from the initialized one when that one lies
    inside, and when the fixed region of a reset does in a sequence that
    resets. *)
Theorem crop_region_stays_inside
    (Math_sqrt : Q -> Q) (env : Env) (c : Container) (events : list Event) :
  containerRef env = Some c ->
  clientWidth c == rect_width (boundingClientRect c) ->
  clientHeight c == rect_height (boundingClientRect c) ->
  inside (Fin (clientWidth c)) (Fin (clientHeight c))
    (cropData (initCropArea env initialState)) = true ->
  (In ResetCrop events ->
   inside (Fin (clientWidth c)) (Fin (clientHeight c))
     (cropData (resetCrop env (initCropArea env initialState))) = true) ->
  inside (Fin (clientWidth c)) (Fin (clientHeight c))
    (cropData (run Math_sqrt env events (initCropArea env initialState))) = true.
Proof.
  intros Hc Hw Hh Hinit Hreset.
  apply (run_invariant Math_sqrt env c Hc Hw Hh events); trivial.
  split; [exact Hinit|].
  unfold anchored, initCropArea.
  destruct (imageRef env); rewrite ?Hc; cbn; split; now eexists.
Qed.

Lemma crop_region_stays_inside_witness :
  inside (Fin 500) (Fin 384)
    (cropData
       (run Qsqrt squareEnv
          [TouchStart [touchAt 200 100]; TouchMove [touchAt 900 (-50)];
           TouchEnd []; TouchStart [touchAt 10 10; touchAt 40 50];
           TouchMove [touchAt 10 10; touchAt 70 90]; TouchEnd [touchAt 10 10];
           TouchMove [touchAt (-300) 700]; ZoomIn; RotateImage; ResetCrop;
           MouseDown (touchAt 5 5); MouseMove (touchAt 450 380); MouseUp; ZoomOut]
          (loaded squareEnv))) = true.
Proof.
  apply (crop_region_stays_inside Qsqrt squareEnv (containerOf 500 384)).
  - reflexivity.
  - reflexivity.
  - reflexivity.
  - vm_compute. reflexivity.
  - intros _. vm_compute. reflexivity.
Defined.

(** C1, at the failing input: the props the workflow mounts the tool
    with, aspect ratio 4/6 in the container of 384 px height.  The
    initialized region is 300 x 450 at y = -33, outside the container
    from the start.  The clamp of a drag, max(0, min(y, 384 - 450)), then
    gives y = 0, and the region ends at 450, below the container's 384:
    after a touch drag and after a mouse drag alike. *)
Theorem passport_region_overflows_the_container :
  let s0 := loaded passportEnv in
  let touched :=
    run Qsqrt passportEnv
      [TouchStart [touchAt 200 100]; TouchMove [touchAt 210 120]] s0 in
  let moused :=
    run Qsqrt passportEnv
      [MouseDown (touchAt 200 100); MouseMove (touchAt 210 120); MouseUp] s0 in
  (eqb (y (cropData s0)) (Fin (-33)) = true
   /\ eqb (height (cropData s0)) (Fin 450) = true
   /\ inside (Fin 500) (Fin 384) (cropData s0) = false)
  /\ (eqb (y (cropData touched)) (Fin 0) = true
      /\ eqb (add (y (cropData touched)) (height (cropData touched))) (Fin 450) = true
      /\ leb (add (y (cropData touched)) (height (cropData touched))) (Fin 384) = false
      /\ inside (Fin 500) (Fin 384) (cropData touched) = false)
  /\ (eqb (y (cropData moused)) (Fin 0) = true
      /\ leb (add (y (cropData moused)) (height (cropData moused))) (Fin 384) = false
      /\ inside (Fin 500) (Fin 384) (cropData moused) = false).
Proof. vm_compute. repeat split. Qed.

(** A reset, too, takes a region out of the container: in a container
    280 px wide the initialized square region is inside, and the fixed
    region of the reset, 300 px wide, is not. *)
Lemma crop_region_escapes :
  (inside (Fin 280) (Fin 384) (cropData (loaded narrowEnv)) = true
   /\ inside (Fin 280) (Fin 384)
        (cropData (run Qsqrt narrowEnv [ResetCrop] (loaded narrowEnv))) = false)
  /\ inside (Fin 500) (Fin 384)
       (cropData (run Qsqrt passportEnv
                    [TouchStart [touchAt 200 100]; TouchMove [touchAt 210 120]]
                    (loaded passportEnv))) = false.
Proof. vm_compute. repeat split. Qed.

(** The zoom after an operation is in [0.5, 3] or is [NaN]. *)
Lemma zoom_in_range_or_NaN (Math_sqrt : Q -> Q) (env : Env) (s : State) (e : Event) :
  between (Fin (1#2)) (Fin 3) (zoom (cropData s)) = true ->
  zoom (cropData (step Math_sqrt env s e)) <> NaN ->
  between (Fin (1#2)) (Fin 3) (zoom (cropData (step Math_sqrt env s e))) = true.
Proof.
  intros Hz.
  destruct e as [t|t|t|m|m| | | | |]; cbn [step].
  - unfold handleTouchStart. destruct t as [|t1 [|t2 [|t3 t]]]; trivial.
  - unfold handleTouchMove. destruct t as [|t1 [|t2 [|t3 t]]]; trivial.
    + destruct (isDragging s && negb (isPinching s))%bool; trivial.
    + destruct (isPinching s); trivial. cbn.
      intros Hn. apply clamp_between; [lra|].
      intros Hv. apply Hn. now rewrite Hv.
  - unfold handleTouchEnd. destruct t as [|t1 [|t2 t]]; trivial.
    destruct (isPinching s); trivial.
  - unfold handleMouseDown. destruct (containerRef env); trivial.
  - unfold handleMouseMove.
    destruct (isDragging s); trivial. destruct (containerRef env); trivial.
  - trivial.
  - intros _. cbn. unfold between in *.
    destruct (zoom (cropData s)) as [| | |z]; try discriminate.
    apply andb_true_iff in Hz as [H1 H2]. revert H1 H2. qauto.
  - intros _. cbn. unfold between in *.
    destruct (zoom (cropData s)) as [| | |z]; try discriminate.
    apply andb_true_iff in Hz as [H1 H2]. revert H1 H2. qauto.
  - trivial.
  - intros _. reflexivity.
Qed.

(** A pinch move leaves the zoom in range unless both the recorded and
    the current distance are zero. *)
Lemma pinch_zoom_in_range (Math_sqrt : Q -> Q) (env : Env) (s : State)
    (t1 t2 : Touch) (l d : Q) :
  between (Fin (1#2)) (Fin 3) (zoom (cropData s)) = true ->
  lastTouchDistance s = Fin l ->
  getTouchDistance Math_sqrt [t1; t2] = Fin d ->
  ~ (l == 0 /\ d == 0) ->
  between (Fin (1#2)) (Fin 3)
    (zoom (cropData (handleTouchMove Math_sqrt env [t1; t2] s))) = true.
Proof.
  intros Hz Hl Hd Hnz.
  apply (zoom_in_range_or_NaN Math_sqrt env s (TouchMove [t1; t2]) Hz).
  cbn [step]. unfold handleTouchMove.
  destruct (isPinching s); cbn [cropData setCropData setLastTouchDistance zoom with_zoom].
  - rewrite Hl, Hd. unfold between in Hz.
    destruct (zoom (cropData s)) as [| | |z]; try discriminate.
    apply andb_true_iff in Hz as [H1 H2]. qfacts.
    assert (Hzpos : (z ?= 0) = Gt) by (apply (proj1 (Qgt_alt z 0)); lra).
    assert (Hzneg : (0 ?= z) = Lt) by (apply (proj1 (Qlt_alt 0 z)); lra).
    cbn [div]. destruct (Qeq_bool l 0) eqn:El.
    + destruct (d ?= 0) eqn:Ec; cbn [inf_of mul]; rewrite ?Hzpos, ?Hzneg;
        cbn [inf_of Math_min Math_max leb]; try discriminate.
      exfalso. apply Hnz. split; [now apply Qeq_bool_iff|now apply Qeq_alt].
    + cbn [mul Math_min Math_max leb]. qcases; discriminate.
  - destruct (zoom (cropData s)); try discriminate; cbn in Hz; discriminate.
Qed.

(** C3, at the failing input.  Two touches at the same point start a
    pinch with distance 0; a move that keeps them together divides 0 by
    0, and [Math.min] and [Math.max] hand the [NaN] through: the zoom,
    1 before, is outside [0.5, 3] after. *)
Theorem pinch_of_coincident_touches_escapes_clamp :
  let s0 := loaded squareEnv in
  let s1 := run Qsqrt squareEnv
              [TouchStart [touchAt 200 100; touchAt 200 100];
               TouchMove [touchAt 200 100; touchAt 200 100]] s0 in
  between (Fin (1#2)) (Fin 3) (zoom (cropData s0)) = true
  /\ zoom (cropData s1) = NaN
  /\ between (Fin (1#2)) (Fin 3) (zoom (cropData s1)) = false.
Proof. vm_compute. repeat split. Qed.

(** C9.  One rotation adds 90 degrees modulo 360, and four of them give
    back the state they started from, for a rotation among 0, 90, 180 and
    270. *)
Theorem rotate_four_times_is_identity (s : State) :
  In (rotation (cropData s)) [0; 90; 180; 270]%Z ->
  rotation (cropData (rotateImage s)) = ((rotation (cropData s) + 90) mod 360)%Z
  /\ rotateImage (rotateImage (rotateImage (rotateImage s))) = s.
Proof.
  destruct s as [[dx dy dw dh dz r] drag resz pinch dist start touches].
  cbn [rotation cropData In].
  intros [<-|[<-|[<-|[<-|[]]]]]; split; reflexivity.
Qed.

Lemma rotate_four_times_is_identity_witness :
  rotateImage (rotateImage (rotateImage (rotateImage
    (rotateImage (loaded passportEnv)))))
  = rotateImage (loaded passportEnv).
Proof.
  apply (rotate_four_times_is_identity (rotateImage (loaded passportEnv))).
  cbn. right. left. reflexivity.
Defined.

(** C6, as amended.  Reset sets zoom 1, rotation 0 and a fixed region
    that does not depend on the container: origin (0, 0), width 300,
    height 300/aspectRatio.  The centred region, as wide as 80% of the
    container but no wider than 300, its height the width over the aspect
    ratio, is what the initialization on image load installs. *)
Theorem resetCrop_installs_the_fixed_region
    (env : Env) (s : State) (c : Container) (img : Image) (a : Q) :
  containerRef env = Some c ->
  imageRef env = Some img ->
  aspectRatio env = Fin a ->
  ~ a == 0 ->
  cropData (resetCrop env s)
  = {| x := Fin 0; y := Fin 0; width := Fin 300;
       height := Fin (300 / a); zoom := Fin 1; rotation := 0 |}
  /\ exists x0 y0 w h,
       cropData (initCropArea env s)
       = {| x := Fin x0; y := Fin y0; width := Fin w; height := Fin h;
            zoom := zoom (cropData s); rotation := rotation (cropData s) |}
       /\ w <= 300
       /\ w <= rect_width (boundingClientRect c) * (8#10)
       /\ (w == 300 \/ w == rect_width (boundingClientRect c) * (8#10))
       /\ h * a == w
       /\ x0 + w + x0 == rect_width (boundingClientRect c)
       /\ y0 + h + y0 == rect_height (boundingClientRect c).
Proof.
  intros Hc Hi Ha Hnz.
  assert (Ez : Qeq_bool a 0 = false).
  { destruct (Qeq_bool a 0) eqn:E; trivial. now apply Qeq_bool_iff in E. }
  split.
  - unfold resetCrop. cbn. rewrite Ha. cbn. now rewrite Ez.
  - unfold initCropArea. rewrite Hi, Hc, Ha.
    cbn [cropData setCropData mul Math_min leb].
    set (W := rect_width (boundingClientRect c)).
    set (H := rect_height (boundingClientRect c)).
    assert (E2 : Qeq_bool 2 0 = false) by reflexivity.
    destruct (Qle_bool 300 (W * (8#10))) eqn:E;
      cbn [div sub]; rewrite Ez, E2; do 4 eexists;
      (split; [reflexivity|]); qfacts;
      repeat split; try lra; try (now left); try (now right);
      field; trivial.
Qed.

Lemma resetCrop_installs_the_fixed_region_witness :
  cropData (resetCrop squareEnv (loaded squareEnv))
  = {| x := Fin 0; y := Fin 0; width := Fin 300;
       height := Fin (300 / 1); zoom := Fin 1; rotation := 0 |}.
Proof.
  apply (resetCrop_installs_the_fixed_region squareEnv (loaded squareEnv)
           (containerOf 500 384)
           {| naturalWidth := 1280; naturalHeight := 720;
              imgDisplayRect := rectOf 500 384 |} 1).
  - reflexivity.
  - reflexivity.
  - reflexivity.
  - unfold Qeq; simpl; lia.
Defined.

(** C6 as stated fails: in a 500 px wide container reset leaves a region
    300 px wide, not 400, and at the left edge, not centred, while the
    initialization had centred it. *)
Lemma resetCrop_is_not_the_centred_default :
  let d := cropData (resetCrop squareEnv (loaded squareEnv)) in
  eqb (width d) (mul (Fin 500) (Fin (8#10))) = false
  /\ eqb (add (x d) (div (width d) (Fin 2))) (div (Fin 500) (Fin 2)) = false
  /\ eqb (x d) (x (cropData (loaded squareEnv))) = false.
Proof. vm_compute. repeat split. Qed.

Lemma ToUint32_floor (q : Q) :
  0 <= q -> q < inject_Z (2 ^ 32) ->
  ToUint32 (Fin q) = Qfloor q.
Proof.
  intros H0 Hlt. unfold ToUint32, Qtrunc.
  apply Qle_bool_iff in H0 as Hb. rewrite Hb.
  apply Z.mod_small. split.
  - change 0%Z with (Qfloor 0). now apply Qfloor_resp_le.
  - rewrite Zlt_Qlt. eapply Qle_lt_trans; [apply Qfloor_le|exact Hlt].
Qed.

Lemma reflected_floor (default : Z) (q : Q) :
  0 <= q -> q < inject_Z (2 ^ 31) ->
  reflected default (Fin q) = Qfloor q.
Proof.
  intros H0 Hlt. unfold reflected.
  assert (Hf : (Qfloor q < 2 ^ 31)%Z).
  { rewrite Zlt_Qlt. eapply Qle_lt_trans; [apply Qfloor_le|exact Hlt]. }
  rewrite ToUint32_floor; trivial.
  - destruct (Z.leb_spec (Qfloor q) (2 ^ 31 - 1)); trivial. lia.
  - eapply Qlt_trans; [exact Hlt|]. rewrite <- Zlt_Qlt. reflexivity.
Qed.




Lemma scale_inside (p w n d : Q) :
  0 < d -> 0 <= n -> 0 <= p -> p + w <= d ->
  0 <= p * (n / d) /\ p * (n / d) + w * (n / d) <= n.
Proof.
  intros Hd Hn Hp Hpw.
  assert (Hr : 0 <= n / d) by (apply Qle_shift_div_l; lra).
  assert (Hnd : d * (n / d) == n) by (field; lra).
  split.
  - apply Qmult_le_0_compat; lra.
  - rewrite <- Qmult_plus_distr_l. rewrite <- Hnd at 2.
    apply Qmult_le_compat_r; lra.
Qed.

(** C7, as amended.  The source rectangle is each coordinate of the
    region times natural/display, with no rounding.  When the region lies
    within the displayed image the rectangle lies within the source
    image. *)
Theorem applyCrop_source_rect_is_unrounded
    (env : Env) (s : State) (img : Image) (cv : Canvas) (c : Container)
    (px py pw ph : Q) :
  imageRef env = Some img ->
  canvasRef env = Some cv ->
  has_context cv = true ->
  containerRef env = Some c ->
  x (cropData s) = Fin px -> y (cropData s) = Fin py ->
  width (cropData s) = Fin pw -> height (cropData s) = Fin ph ->
  0 < rect_width (imgDisplayRect img) ->
  0 < rect_height (imgDisplayRect img) ->
  0 <= naturalWidth img ->
  0 <= naturalHeight img ->
  exists out sx sy sw sh,
    fst (applyCrop env s) = Some out
    /\ sourceRects out = [(Fin sx, Fin sy, Fin sw, Fin sh)]
    /\ sx == px * (naturalWidth img / rect_width (imgDisplayRect img))
    /\ sy == py * (naturalHeight img / rect_height (imgDisplayRect img))
    /\ sw == pw * (naturalWidth img / rect_width (imgDisplayRect img))
    /\ sh == ph * (naturalHeight img / rect_height (imgDisplayRect img))
    /\ (0 <= px -> px + pw <= rect_width (imgDisplayRect img) ->
        0 <= sx /\ sx + sw <= naturalWidth img)
    /\ (0 <= py -> py + ph <= rect_height (imgDisplayRect img) ->
        0 <= sy /\ sy + sh <= naturalHeight img).
Proof.
  intros Hi Hcv Hctx Hc Hx Hy Hw Hh HdW HdH HnW HnH.
  set (dW := rect_width (imgDisplayRect img)) in *.
  set (dH := rect_height (imgDisplayRect img)) in *.
  assert (EW : Qeq_bool dW 0 = false).
  { destruct (Qeq_bool dW 0) eqn:E; trivial. apply Qeq_bool_iff in E. lra. }
  assert (EH : Qeq_bool dH 0 = false).
  { destruct (Qeq_bool dH 0) eqn:E; trivial. apply Qeq_bool_iff in E. lra. }
  assert (Hrect : cropSourceRect img (cropData s)
                  = (Fin (px * (naturalWidth img / dW)),
                     Fin (py * (naturalHeight img / dH)),
                     Fin (pw * (naturalWidth img / dW)),
                     Fin (ph * (naturalHeight img / dH)))).
  { unfold cropSourceRect. fold dW dH. rewrite Hx, Hy, Hw, Hh.
    cbn [div]. rewrite EW, EH. reflexivity. }
  unfold applyCrop. rewrite Hi, Hcv, Hctx, Hc, Hrect.
  match goal with
  | |- context [toBlob env ?p] => destruct (toBlob env p)
  end;
    (do 5 eexists; do 6 (split; [reflexivity|]);
     split; intros; now apply scale_inside).
Qed.

Lemma applyCrop_source_rect_is_unrounded_witness :
  exists out sx sy sw sh,
    fst (applyCrop squareEnv specRegion) = Some out
    /\ sourceRects out = [(Fin sx, Fin sy, Fin sw, Fin sh)]
    /\ sx == 100 * (1280 / 500)
    /\ sy == 50 * (720 / 384)
    /\ sw == 300 * (1280 / 500)
    /\ sh == 450 * (720 / 384)
    /\ (0 <= 100 -> 100 + 300 <= 500 -> 0 <= sx /\ sx + sw <= 1280)
    /\ (0 <= 50 -> 50 + 450 <= 384 -> 0 <= sy /\ sy + sh <= 720).
Proof.
  apply (applyCrop_source_rect_is_unrounded squareEnv specRegion captured
           blankCanvas (containerOf 500 384) 100 50 300 450).
  - reflexivity.
  - reflexivity.
  - reflexivity.
  - reflexivity.
  - reflexivity.
  - reflexivity.
  - reflexivity.
  - reflexivity.
  - reflexivity.
  - reflexivity.
  - unfold Qle; simpl; lia.
  - unfold Qle; simpl; lia.
Defined.

(** C7 as stated fails: for the region of the end-to-end example the
    source rectangle starts at y = 93.75 and is 843.75 high, where
    rounding down gives 93 and 843. *)
Lemma applyCrop_source_rect_is_not_floored :
  exists out sx sy sw sh,
    fst (applyCrop squareEnv specRegion) = Some out
    /\ sourceRects out = [(sx, sy, sw, sh)]
    /\ computeCropSourceRect_spec captured (cropData specRegion)
       = (Math_floor sx, Math_floor sy, Math_floor sw, Math_floor sh)
    /\ eqb sy (Fin (375 # 4)) = true /\ eqb (Math_floor sy) (Fin 93) = true
    /\ eqb sh (Fin (3375 # 4)) = true /\ eqb (Math_floor sh) (Fin 843) = true
    /\ eqb sy (Math_floor sy) = false
    /\ eqb sh (Math_floor sh) = false.
Proof.
  do 5 eexists. split; [reflexivity|]. split; [reflexivity|].
  vm_compute. repeat split.
Qed.

End CropClaims.

(** ** The workflow orchestrator *)
Section Orchestrator.
Import MasterPhotoCapture.
Local Open Scope string_scope.

Lemma goNext_advances (s : State) :
  currentStep (goNext s)
  = match currentStep s with
    | capture => crop
    | crop => enhance
    | enhance => templates
    | templates => final
    | final => final
    end.
Proof. unfold goNext. destruct (currentStep s) eqn:E; cbn; rewrite ?E; reflexivity. Qed.

(** C2, as amended.  The guard sits on the Next button, not in
    [goNext]: while the artifact of the current stage is empty the
    button is disabled, and pressing it leaves the state, and so the
    stage, as it was. *)
Theorem next_is_disabled_without_artifact (s : State) :
  artifactOf s = Some "" ->
  canGoNext s = false
  /\ (exists b, nextButton s = Some b /\ disabled b = true)
  /\ clickNext s = s
  /\ currentStep (clickNext s) = currentStep s.
Proof.
  unfold artifactOf, clickNext, nextButton, canGoNext.
  destruct (currentStep s) eqn:E; intros H; inversion H as [H1];
    try rewrite H1; cbn; rewrite ?E;
    (split; [reflexivity|]); (split; [eexists; split; reflexivity|]);
    split; trivial.
Qed.

Lemma next_is_disabled_without_artifact_witness :
  canGoNext initialState = false
  /\ (exists b, nextButton initialState = Some b /\ disabled b = true)
  /\ clickNext initialState = initialState
  /\ currentStep (clickNext initialState) = currentStep initialState.
Proof.
  apply (next_is_disabled_without_artifact initialState).
  reflexivity.
Defined.

(** C2 as stated fails: [goNext] itself looks at no artifact, and
    called in [capture] with nothing captured it moves on to [crop]. *)
Lemma goNext_ignores_the_guard :
  currentStep initialState = capture
  /\ capturedImage initialState = ""
  /\ canGoNext initialState = false
  /\ currentStep (goNext initialState) = crop
  /\ goNext initialState <> initialState.
Proof. repeat split. discriminate. Qed.

End Orchestrator.

(** ** File ingestion *)
Section Ingestion.
Import EnhancedPhotoCapture Examples.
Local Open Scope string_scope.
Local Open Scope Z_scope.

Lemma gif_is_unsupported : includes supportedTypes "image/gif" = false.
Proof. reflexivity. Qed.

Lemma unsupported_is_rejected (f : File) (rest : list File) (st : State) :
  includes supportedTypes (type f) = false ->
  ingestFile (f :: rest) st = (st, [notice UnsupportedFormat]).
Proof. intros H. unfold ingestFile, handleFileUpload. now rewrite H. Qed.

(** C4, as amended.  A file declared [image/gif] is rejected with
    UnsupportedFormat, and a file of a supported type larger than 10 MiB
    with FileTooLarge; either way nothing is read, and the selected image
    and the current step stay as they were. *)
Theorem ingestion_rejects_gif_and_oversized
    (f : File) (rest : list File) (st : State) (e : IngestError) :
  (type f = "image/gif" /\ e = UnsupportedFormat)
  \/ (includes supportedTypes (type f) = true
      /\ 10 * MiB < size f /\ e = FileTooLarge) ->
  ingestFile (f :: rest) st = (st, [notice e])
  /\ producesArtifact (snd (ingestFile (f :: rest) st)) = false
  /\ selectedImage (fst (ingestFile (f :: rest) st)) = selectedImage st
  /\ currentStep (fst (ingestFile (f :: rest) st)) = currentStep st.
Proof.
  intros H.
  assert (E : ingestFile (f :: rest) st = (st, [notice e])).
  { destruct H as [[Ht ->]|(Hs & Hlt & ->)].
    - apply unsupported_is_rejected. now rewrite Ht.
    - unfold ingestFile, handleFileUpload. rewrite Hs. cbn [negb].
      apply Z.ltb_lt in Hlt. change (10 * MiB) with maxFileSize in Hlt.
      now rewrite Hlt. }
  rewrite E. repeat split. now destruct e.
Qed.

Lemma ingestion_rejects_gif_and_oversized_witness :
  ingestFile [fileOf "image/png" (11 * MiB)] initialState
  = (initialState, [notice FileTooLarge])
  /\ producesArtifact
       (snd (ingestFile [fileOf "image/png" (11 * MiB)] initialState)) = false
  /\ selectedImage (fst (ingestFile [fileOf "image/png" (11 * MiB)] initialState))
     = selectedImage initialState
  /\ currentStep (fst (ingestFile [fileOf "image/png" (11 * MiB)] initialState))
     = currentStep initialState.
Proof.
  apply (ingestion_rejects_gif_and_oversized
           (fileOf "image/png" (11 * MiB)) [] initialState FileTooLarge).
  right. repeat split.
Defined.

(** C4 as stated fails: a GIF of 11 MiB is larger than 10 MiB and is
    rejected with UnsupportedFormat, not with FileTooLarge. *)
Lemma oversized_gif_is_not_FileTooLarge :
  10 * MiB < size (fileOf "image/gif" (11 * MiB))
  /\ snd (ingestFile [fileOf "image/gif" (11 * MiB)] initialState)
     = [notice UnsupportedFormat]
  /\ snd (ingestFile [fileOf "image/gif" (11 * MiB)] initialState)
     <> [notice FileTooLarge].
Proof. repeat split. discriminate. Qed.

(** C10.  The format is checked before the size: a file of a type
    outside the supported set is rejected with UnsupportedFormat whatever
    its size, and FileTooLarge is not reported for it. *)
Theorem format_check_precedes_size_check
    (f : File) (rest : list File) (st : State) :
  includes supportedTypes (type f) = false ->
  ingestFile (f :: rest) st = (st, [notice UnsupportedFormat])
  /\ ~ In (notice FileTooLarge) (snd (ingestFile (f :: rest) st)).
Proof.
  intros H. rewrite (unsupported_is_rejected f rest st H). split; trivial.
  cbn. intros [E|[]]. discriminate E.
Qed.

Lemma format_check_precedes_size_check_witness :
  10 * MiB < size (fileOf "image/bmp" (20 * MiB))
  /\ ingestFile [fileOf "image/bmp" (20 * MiB)] initialState
     = (initialState, [notice UnsupportedFormat])
  /\ ~ In (notice FileTooLarge)
         (snd (ingestFile [fileOf "image/bmp" (20 * MiB)] initialState)).
Proof.
  split; [reflexivity|].
  apply (format_check_precedes_size_check
           (fileOf "image/bmp" (20 * MiB)) [] initialState).
  reflexivity.
Defined.

(** A file that passes both checks is read and becomes the selected
    image. *)
Lemma accepted_file_is_selected :
  ingestFile [fileOf "image/png" (2 * MiB)] initialState
  = ({| activeMode := mode_edit; isStreaming := false;
        selectedImage := Some "data:;base64,AAAA"; editedImage := None;
        currentStep := step_crop |},
     [ReadAsDataURL (fileOf "image/png" (2 * MiB))]).
Proof. reflexivity. Qed.

End Ingestion.

(** ** The templating stage *)
Section Templating.
Import CVPhotoTemplates.
Local Open Scope string_scope.

(** C8, as amended.  When the image fails to decode, [applyTemplate]
    catches the error and only logs it on the console: no notice is
    shown and the promise of the call is not rejected, so nothing is
    surfaced.  [onTemplateApplied] is not called, the preview URL is the
    one of before, the canvas has not been touched and [isProcessing] is
    cleared; the template that failed is recorded as the selected one all
    the same. *)
Theorem decode_failure_is_only_logged
    (env : Env) (template : PhotoTemplate) (st : State) (cv : Canvas) :
  canvasRef env = Some cv ->
  has_context cv = true ->
  decode env (imageUrl env) = None ->
  let o := applyTemplate env template st in
  effects_out o = [ConsoleError "Error applying template:" ImageLoadError]
  /\ rejection o = None
  /\ surfaced o = false
  /\ published o = false
  /\ previewUrl (state o) = previewUrl st
  /\ canvas o = Some cv
  /\ isProcessing (state o) = false
  /\ selectedTemplate (state o) = id template.
Proof.
  intros Hcv Hctx Hd. unfold applyTemplate, render.
  rewrite Hcv, Hctx, Hd. cbn. repeat split.
Qed.

Lemma decode_failure_is_only_logged_witness :
  let o := applyTemplate (Examples.templateEnv None) Examples.linkedin
             Examples.previewed in
  effects_out o = [ConsoleError "Error applying template:" ImageLoadError]
  /\ rejection o = None
  /\ surfaced o = false
  /\ published o = false
  /\ previewUrl (state o) = "blob:previous"
  /\ canvas o = Some Examples.templateCanvas
  /\ isProcessing (state o) = false
  /\ selectedTemplate (state o) = "linkedin-style".
Proof.
  apply (decode_failure_is_only_logged (Examples.templateEnv None)
           Examples.linkedin Examples.previewed Examples.templateCanvas).
  - reflexivity.
  - reflexivity.
  - reflexivity.
Defined.

(** C8 as stated fails: with an image that does not decode, applying the
    LinkedIn template over a passport preview surfaces no failure (no
    notice, no rejection; the console line is all there is), and the
    state is not left as it was: the selected template is now the one
    that failed. *)
Lemma decode_failure_is_not_surfaced :
  let o := applyTemplate (Examples.templateEnv None) Examples.linkedin
             Examples.previewed in
  surfaced o = false
  /\ logged o = true
  /\ selectedTemplate Examples.previewed = "passport-standard"
  /\ selectedTemplate (state o) = "linkedin-style"
  /\ state o <> Examples.previewed.
Proof. vm_compute. repeat split. discriminate. Qed.

(** With an image that decodes, the same call publishes the new
    preview on a canvas of the template's ratio. *)
Lemma decoded_image_is_published :
  let o := applyTemplate
             (Examples.templateEnv (Some {| img_width := 400; img_height := 600 |}))
             Examples.linkedin Examples.previewed in
  effects_out o = [OnTemplateApplied "blob:templated"]
  /\ previewUrl (state o) = "blob:templated"
  /\ option_map canvas_width (canvas o) = Some 640%Z
  /\ option_map canvas_height (canvas o) = Some 800%Z.
Proof. vm_compute. repeat split. Qed.

End Templating.

(** * Further properties of the code *)

(** ** The crop controller: gestures *)
Section CropGestures.
Import MobileCropTool Examples.
Local Open Scope Q_scope.

Variable Math_sqrt : Q -> Q.
Variable env : Env.

Lemma step_keeps_size (s : State) (e : Event) :
  e <> ResetCrop ->
  width (cropData (step Math_sqrt env s e)) = width (cropData s)
  /\ height (cropData (step Math_sqrt env s e)) = height (cropData s).
Proof.
  intros Hne.
  destruct e as [t|t|t|m|m| | | | |]; cbn [step]; try congruence;
    try (split; reflexivity).
  - unfold handleTouchStart. destruct t as [|t1 [|t2 [|t3 t]]]; split; reflexivity.
  - unfold handleTouchMove. destruct t as [|t1 [|t2 [|t3 t]]]; try (split; reflexivity).
    + destruct (isDragging s && negb (isPinching s))%bool; split; reflexivity.
    + destruct (isPinching s); split; reflexivity.
  - unfold handleTouchEnd. destruct t as [|t1 [|t2 t]]; try (split; reflexivity).
    destruct (isPinching s); split; reflexivity.
  - unfold handleMouseDown. destruct (containerRef env); split; reflexivity.
  - unfold handleMouseMove.
    destruct (isDragging s), (containerRef env); split; reflexivity.
Qed.

(** X1.  No gesture and no button but reset changes the size of the crop
    region: over any sequence of events without a reset, width and
    height are what they were. *)
Theorem region_size_changes_only_on_reset (events : list Event) (s : State) :
  ~ In ResetCrop events ->
  width (cropData (run Math_sqrt env events s)) = width (cropData s)
  /\ height (cropData (run Math_sqrt env events s)) = height (cropData s).
Proof.
  revert s. induction events as [|e events IH]; intros s Hno.
  - split; reflexivity.
  - cbn [run fold_left].
    assert (Hne : e <> ResetCrop) by (intros ->; apply Hno; now left).
    assert (Hno' : ~ In ResetCrop events) by (intros H; apply Hno; now right).
    destruct (IH (step Math_sqrt env s e) Hno') as [Hw Hh].
    destruct (step_keeps_size s e Hne) as [Hw' Hh'].
    unfold run in *. split; congruence.
Qed.

Lemma step_keeps_NaN_zoom (s : State) (e : Event) :
  e <> ResetCrop ->
  zoom (cropData s) = NaN ->
  zoom (cropData (step Math_sqrt env s e)) = NaN.
Proof.
  intros Hne Hz.
  destruct e as [t|t|t|m|m| | | | |]; cbn [step]; try congruence.
  - unfold handleTouchStart. destruct t as [|t1 [|t2 [|t3 t]]]; exact Hz.
  - unfold handleTouchMove. destruct t as [|t1 [|t2 [|t3 t]]]; try exact Hz.
    + destruct (isDragging s && negb (isPinching s))%bool; exact Hz.
    + destruct (isPinching s); [|exact Hz]. cbn. now rewrite Hz.
  - unfold handleTouchEnd. destruct t as [|t1 [|t2 t]]; try exact Hz.
    destruct (isPinching s); exact Hz.
  - unfold handleMouseDown. destruct (containerRef env); exact Hz.
  - unfold handleMouseMove.
    destruct (isDragging s), (containerRef env); exact Hz.
  - exact Hz.
  - cbn. now rewrite Hz.
  - cbn. now rewrite Hz.
  - exact Hz.
Qed.

(** X2.  A zoom that has become [NaN] stays [NaN] under every pinch, zoom
    button and other event; only reset brings it back, to 1. *)
Theorem NaN_zoom_persists_until_reset (events : list Event) (s : State) :
  zoom (cropData s) = NaN ->
  ~ In ResetCrop events ->
  zoom (cropData (run Math_sqrt env events s)) = NaN
  /\ zoom (cropData (resetCrop env (run Math_sqrt env events s))) = Fin 1.
Proof.
  intros Hz Hno. split; [|reflexivity].
  revert s Hz. induction events as [|e events IH]; intros s Hz.
  - exact Hz.
  - cbn [run fold_left]. apply IH.
    + intros H. apply Hno. now right.
    + apply step_keeps_NaN_zoom; trivial. intros ->. apply Hno. now left.
Qed.

End CropGestures.

Lemma region_size_changes_only_on_reset_witness :
  MobileCropTool.width
    (MobileCropTool.cropData
       (MobileCropTool.run Qsqrt Examples.passportEnv
          [MobileCropTool.TouchStart [Examples.touchAt 200 100];
           MobileCropTool.TouchMove [Examples.touchAt 260 90];
           MobileCropTool.ZoomIn; MobileCropTool.RotateImage]
          (Examples.loaded Examples.passportEnv)))
  = MobileCropTool.width (MobileCropTool.cropData (Examples.loaded Examples.passportEnv)).
Proof.
  apply (region_size_changes_only_on_reset Qsqrt Examples.passportEnv).
  cbn. intros [H|[H|[H|[H|[]]]]]; discriminate H.
Defined.

Lemma NaN_zoom_persists_until_reset_witness :
  let stuck := MobileCropTool.run Qsqrt Examples.squareEnv
                 [MobileCropTool.TouchStart
                    [Examples.touchAt 200 100; Examples.touchAt 200 100];
                  MobileCropTool.TouchMove
                    [Examples.touchAt 200 100; Examples.touchAt 200 100]]
                 (Examples.loaded Examples.squareEnv) in
  MobileCropTool.zoom
    (MobileCropTool.cropData
       (MobileCropTool.run Qsqrt Examples.squareEnv
          [MobileCropTool.TouchMove
             [Examples.touchAt 100 100; Examples.touchAt 300 300];
           MobileCropTool.ZoomIn; MobileCropTool.ZoomOut]
          stuck)) = NaN.
Proof.
  apply (NaN_zoom_persists_until_reset Qsqrt Examples.squareEnv).
  - reflexivity.
  - cbn. intros [H|[H|[H|[]]]]; discriminate H.
Defined.

(** ** The crop controller: geometry of a drag *)
Section CropDrag.
Import MobileCropTool Examples.
Local Open Scope Q_scope.

Variable Math_sqrt : Q -> Q.
Variable env : Env.
Variable c : Container.
Hypothesis Hc : containerRef env = Some c.




(** X5.  A region wider than the container is pinned to the left edge by
    every drag move and sticks out on the right; one higher than the
    container is pinned to the top and sticks out below. *)
Theorem drag_pins_an_oversized_region (q : Touch) (s : State) (ax ay w h : Q) :
  isDragging s = true -> isPinching s = false ->
  dragStart s = {| tp_x := Fin ax; tp_y := Fin ay |} ->
  width (cropData s) = Fin w -> height (cropData s) = Fin h ->
  let d := cropData (handleTouchMove Math_sqrt env [q] s) in
  (clientWidth c < w ->
   x d = Fin 0 /\ leb (add (x d) (width d)) (Fin (clientWidth c)) = false)
  /\ (clientHeight c < h ->
      y d = Fin 0 /\ leb (add (y d) (height d)) (Fin (clientHeight c)) = false).
Proof.
  intros Hd Hp Ha Hw Hh.
  unfold handleTouchMove. rewrite Hd, Hp. cbn [andb negb].
  rewrite (getTouchPosition_finite env c Hc), Ha.
  cbn [cropData setCropData with_xy x y width height tp_x tp_y]. rewrite Hw, Hh.
  destruct (containerClientWidth_eq env c Hc) as (cw' & -> & Hcw).
  destruct (containerClientHeight_eq env c Hc) as (ch' & -> & Hch).
  cbn [sub Math_min Math_max leb add].
  split; intros Hlt.
  - destruct (Qle_bool _ (cw' - w)) eqn:E1.
    + destruct (Qle_bool 0 _) eqn:E2; qfacts; try lra.
      split; [reflexivity|]. cbn [leb add].
      destruct (Qle_bool (0 + w) (clientWidth c)) eqn:E3; trivial. qfacts. lra.
    + destruct (Qle_bool 0 (cw' - w)) eqn:E2; qfacts; try lra.
      split; [reflexivity|]. cbn [leb add].
      destruct (Qle_bool (0 + w) (clientWidth c)) eqn:E3; trivial. qfacts. lra.
  - destruct (Qle_bool _ (ch' - h)) eqn:E1.
    + destruct (Qle_bool 0 _) eqn:E2; qfacts; try lra.
      split; [reflexivity|]. cbn [leb add].
      destruct (Qle_bool (0 + h) (clientHeight c)) eqn:E3; trivial. qfacts. lra.
    + destruct (Qle_bool 0 (ch' - h)) eqn:E2; qfacts; try lra.
      split; [reflexivity|]. cbn [leb add].
      destruct (Qle_bool (0 + h) (clientHeight c)) eqn:E3; trivial. qfacts. lra.
Qed.

End CropDrag.



Lemma drag_pins_an_oversized_region_witness :
  let s := MobileCropTool.handleTouchStart Qsqrt Examples.passportEnv
             [Examples.touchAt 200 100] (Examples.loaded Examples.passportEnv) in
  let d := MobileCropTool.cropData
             (MobileCropTool.handleTouchMove Qsqrt Examples.passportEnv
                [Examples.touchAt 210 300] s) in
  MobileCropTool.y d = Fin 0
  /\ leb (add (MobileCropTool.y d) (MobileCropTool.height d)) (Fin 384) = false.
Proof.
  refine (proj2 (drag_pins_an_oversized_region Qsqrt Examples.passportEnv
            (Examples.containerOf 500 384) eq_refl
            (Examples.touchAt 210 300)
            (MobileCropTool.handleTouchStart Qsqrt Examples.passportEnv
               [Examples.touchAt 200 100] (Examples.loaded Examples.passportEnv))
            _ _ 300%Q _ eq_refl eq_refl eq_refl eq_refl eq_refl) _).
  vm_compute. reflexivity.
Defined.

(** ** The crop controller: the initialized region *)
Section CropOutput.
Import MobileCropTool Examples.
Local Open Scope Q_scope.

(** X7.  The initialized region is inside the container exactly when it is
    no higher than the container: it is never wider, and it is centred. *)
Theorem initialized_region_inside_iff
    (env : Env) (s : State) (c : Container) (img : Image) (a : Q) :
  containerRef env = Some c ->
  imageRef env = Some img ->
  aspectRatio env = Fin a -> ~ a == 0 ->
  0 <= rect_width (boundingClientRect c) ->
  inside (Fin (rect_width (boundingClientRect c)))
         (Fin (rect_height (boundingClientRect c)))
         (cropData (initCropArea env s)) = true
  <-> leb (height (cropData (initCropArea env s)))
          (Fin (rect_height (boundingClientRect c))) = true.
Proof.
  intros Hc Hi Ha Hnz HW.
  assert (Ez : Qeq_bool a 0 = false).
  { destruct (Qeq_bool a 0) eqn:E; trivial. now apply Qeq_bool_iff in E. }
  assert (E2 : Qeq_bool 2 0 = false) by reflexivity.
  unfold initCropArea, inside. rewrite Hi, Hc, Ha.
  cbn [cropData setCropData mul Math_min leb x y width height].
  set (W := rect_width (boundingClientRect c)) in *.
  set (H := rect_height (boundingClientRect c)).
  destruct (Qle_bool 300 (W * (8#10))) eqn:E;
    cbn [div]; rewrite ?Ez; cbn [div sub add]; rewrite ?E2; cbn [leb add];
    rewrite !andb_true_iff, !Qle_bool_iff; qfacts.
  - set (h := 300 / a).
    assert (Hx : (W - 300) / 2 == (W - 300) * (1#2)) by (field).
    assert (Hy : (H - h) / 2 == (H - h) * (1#2)) by (field).
    rewrite Hx, Hy. split.
    + intros [[[H1 H2] H3] H4]. lra.
    + intros Hh. repeat split; lra.
  - set (w := W * (8#10)). set (h := w / a).
    assert (Hx : (W - w) / 2 == (W - w) * (1#2)) by (field).
    assert (Hy : (H - h) / 2 == (H - h) * (1#2)) by (field).
    rewrite Hx, Hy. subst w. split.
    + intros [[[H1 H2] H3] H4]. lra.
    + intros Hh. repeat split; lra.
Qed.

End CropOutput.

Lemma initialized_region_inside_iff_witness :
  MobileCropTool.inside (Fin 500) (Fin 384)
    (MobileCropTool.cropData (Examples.loaded Examples.squareEnv)) = true
  <-> leb (MobileCropTool.height
             (MobileCropTool.cropData (Examples.loaded Examples.squareEnv)))
          (Fin 384) = true.
Proof.
  apply (initialized_region_inside_iff Examples.squareEnv
           MobileCropTool.initialState (Examples.containerOf 500 384)
           Examples.captured 1);
    try reflexivity; unfold Qeq, Qle; simpl; lia.
Defined.

(** ** The orchestrator: navigation *)
Section Navigation.
Import MasterPhotoCapture MasterPhotoCaptureHandlers.
Local Open Scope string_scope.

Lemma State_eta (s : State) :
  s = {| currentStep := currentStep s; capturedImage := capturedImage s;
         croppedImage := croppedImage s; enhancedImage := enhancedImage s;
         finalImage := finalImage s; selectedAspectRatio := selectedAspectRatio s;
         processingStep := processingStep s |}.
Proof. now destruct s. Qed.

Lemma goPrev_after_goNext (s : State) :
  currentStep s <> final -> goPrev (goNext s) = s.
Proof.
  intros Hne. rewrite (State_eta s) at 2.
  unfold goNext, goPrev.
  destruct (currentStep s) eqn:E; try congruence; cbn; rewrite ?E; reflexivity.
Qed.

Lemma goNext_after_goPrev (s : State) :
  currentStep s <> capture -> goNext (goPrev s) = s.
Proof.
  intros Hne. rewrite (State_eta s) at 2.
  unfold goNext, goPrev.
  destruct (currentStep s) eqn:E; try congruence; cbn; rewrite ?E; reflexivity.
Qed.

(** What the background removal delivers changes [enhancedImage] and
    nothing else, so it commutes with the two moves. *)
Lemma deliveries_step (urls : list string) (s : State) :
  currentStep (deliveries urls s) = currentStep s.
Proof.
  unfold deliveries. revert s.
  induction urls as [|u urls IH]; intros s; [reflexivity|].
  cbn [map fold_left navigate]. now rewrite IH.
Qed.

Lemma deliveries_goNext (urls : list string) (s : State) :
  deliveries urls (goNext s) = goNext (deliveries urls s).
Proof.
  unfold deliveries. revert s.
  induction urls as [|u urls IH]; intros s; [reflexivity|].
  cbn [map fold_left navigate]. rewrite <- IH. f_equal.
  unfold goNext, onProcessed, setEnhancedImage. cbn [currentStep].
  destruct (currentStep s) eqn:E; cbn; rewrite ?E; reflexivity.
Qed.

Lemma deliveries_goPrev (urls : list string) (s : State) :
  deliveries urls (goPrev s) = goPrev (deliveries urls s).
Proof.
  unfold deliveries. revert s.
  induction urls as [|u urls IH]; intros s; [reflexivity|].
  cbn [map fold_left navigate]. rewrite <- IH. f_equal.
  unfold goPrev, onProcessed, setEnhancedImage. cbn [currentStep].
  destruct (currentStep s) eqn:E; cbn; rewrite ?E; reflexivity.
Qed.

(** X8.  Going on and coming back cancel, whatever the hidden background
    removal delivers in between: the state is the one its callbacks alone
    lead to (the state of before when it delivers nothing).  Except from
    the last step, where [goNext] does nothing. *)
Theorem goPrev_undoes_goNext (urls : list string) (s : State) :
  currentStep s <> final ->
  fold_left navigate (Next :: map BackgroundProcessed urls ++ [Prev]) s
  = fold_left navigate (map BackgroundProcessed urls) s.
Proof.
  intros Hne. cbn [fold_left navigate]. rewrite fold_left_app.
  cbn [fold_left navigate].
  fold (deliveries urls (goNext s)). fold (deliveries urls s).
  rewrite deliveries_goNext. apply goPrev_after_goNext.
  now rewrite deliveries_step.
Qed.

(** Coming back and going on cancel in the same way, except from the
    first step, where [goPrev] does nothing. *)
Theorem goNext_undoes_goPrev (urls : list string) (s : State) :
  currentStep s <> capture ->
  fold_left navigate (Prev :: map BackgroundProcessed urls ++ [Next]) s
  = fold_left navigate (map BackgroundProcessed urls) s.
Proof.
  intros Hne. cbn [fold_left navigate]. rewrite fold_left_app.
  cbn [fold_left navigate].
  fold (deliveries urls (goPrev s)). fold (deliveries urls s).
  rewrite deliveries_goPrev. apply goNext_after_goPrev.
  now rewrite deliveries_step.
Qed.

(** [resetWorkflow] returns to the first step with all four artifacts
    empty, so the Next button is disabled again and pressing it does
    nothing; a second reset changes nothing more. *)
Theorem resetWorkflow_clears_and_blocks (s : State) :
  currentStep (resetWorkflow s) = capture
  /\ artifacts (resetWorkflow s) = ("", "", "", "")
  /\ canGoNext (resetWorkflow s) = false
  /\ clickNext (resetWorkflow s) = resetWorkflow s
  /\ resetWorkflow (resetWorkflow s) = resetWorkflow s.
Proof. repeat split. Qed.

Lemma last_cons (A : Type) (a d : A) (l : list A) : last (a :: l) d = last l a.
Proof.
  revert a d. induction l as [|b l IH]; intros a d; [reflexivity|].
  change (last (a :: b :: l) d) with (last (b :: l) d).
  now rewrite !IH.
Qed.

Lemma navigate_keeps_artifacts (s : State) (n : Nav) :
  capturedImage (navigate s n) = capturedImage s
  /\ croppedImage (navigate s n) = croppedImage s
  /\ finalImage (navigate s n) = finalImage s
  /\ enhancedImage (navigate s n) = last (delivered [n]) (enhancedImage s).
Proof.
  destruct n; cbn [navigate delivered flat_map app last].
  - unfold goNext. destruct (currentStep s); repeat split.
  - unfold goPrev. destruct (currentStep s); repeat split.
  - unfold clickNext, nextButton, click.
    destruct (currentStep s) eqn:E; cbn; try (repeat split; fail);
      destruct (canGoNext s); cbn; try (repeat split; fail);
      unfold goNext; rewrite E; repeat split.
  - repeat split.
Qed.

(** X9.  Moving between the steps, forward or back, by function or by
    button, never clears or replaces an artifact.  After any sequence of
    moves, with callbacks of the background removal in between, the
    captured, the cropped and the final image are the ones of before, and
    the enhanced image is the last one the background removal delivered,
    or the one of before when it delivered none. *)
Theorem navigation_keeps_artifacts (moves : list Nav) (s : State) :
  capturedImage (fold_left navigate moves s) = capturedImage s
  /\ croppedImage (fold_left navigate moves s) = croppedImage s
  /\ finalImage (fold_left navigate moves s) = finalImage s
  /\ enhancedImage (fold_left navigate moves s)
     = last (delivered moves) (enhancedImage s).
Proof.
  revert s. induction moves as [|n moves IH]; intros s; [repeat split|].
  cbn [fold_left].
  destruct (IH (navigate s n)) as (H1 & H2 & H3 & H4).
  destruct (navigate_keeps_artifacts s n) as (K1 & K2 & K3 & K4).
  rewrite H1, H2, H3, H4, K1, K2, K3, K4.
  repeat split.
  destruct n; unfold delivered; cbn [flat_map app last]; try reflexivity.
  symmetry. apply last_cons.
Qed.

(** X10.  The Next button moves on exactly one step when the artifact of the
    current step is there. *)
Theorem next_advances_with_artifact (s : State) (url : string) :
  artifactOf s = Some url -> url <> "" ->
  clickNext s = goNext s /\ currentStep (clickNext s) <> currentStep s.
Proof.
  intros Ha Hne.
  assert (Hn : nonEmpty url = true).
  { unfold nonEmpty. destruct (String.eqb url "") eqn:E; trivial.
    apply String.eqb_eq in E. contradiction. }
  unfold artifactOf in Ha. unfold clickNext, nextButton, click, canGoNext.
  destruct (currentStep s) eqn:E; inversion Ha as [H1]; subst url;
    cbn [disabled onClick]; rewrite Hn; cbn [negb];
    (split; [reflexivity|]); rewrite goNext_advances, E; discriminate.
Qed.

End Navigation.

Lemma goPrev_undoes_goNext_witness :
  let s := MasterPhotoCaptureHandlers.enhanced "blob:enhanced"
             (MasterPhotoCapture.handlePhotoCaptured "blob:raw"
                MasterPhotoCapture.initialState) in
  fold_left MasterPhotoCaptureHandlers.navigate
    [MasterPhotoCaptureHandlers.Next;
     MasterPhotoCaptureHandlers.BackgroundProcessed "blob:bg1";
     MasterPhotoCaptureHandlers.BackgroundProcessed "blob:bg2";
     MasterPhotoCaptureHandlers.Prev] s
  = MasterPhotoCaptureHandlers.setEnhancedImage "blob:bg2" s.
Proof.
  apply (goPrev_undoes_goNext ["blob:bg1"; "blob:bg2"]%string
           (MasterPhotoCaptureHandlers.enhanced "blob:enhanced"
              (MasterPhotoCapture.handlePhotoCaptured "blob:raw"
                 MasterPhotoCapture.initialState))).
  simpl. discriminate.
Defined.

Lemma goNext_undoes_goPrev_witness :
  fold_left MasterPhotoCaptureHandlers.navigate
    [MasterPhotoCaptureHandlers.Prev; MasterPhotoCaptureHandlers.Next]
    (MasterPhotoCapture.handleTemplateApplied "blob:final" MasterPhotoCapture.initialState)
  = MasterPhotoCapture.handleTemplateApplied "blob:final" MasterPhotoCapture.initialState.
Proof.
  apply (goNext_undoes_goPrev []
           (MasterPhotoCapture.handleTemplateApplied "blob:final"
              MasterPhotoCapture.initialState)).
  simpl. discriminate.
Defined.

Lemma next_advances_with_artifact_witness :
  MasterPhotoCapture.clickNext
    (MasterPhotoCapture.goPrev
       (MasterPhotoCapture.handlePhotoCaptured "blob:raw" MasterPhotoCapture.initialState))
  = MasterPhotoCapture.goNext
      (MasterPhotoCapture.goPrev
         (MasterPhotoCapture.handlePhotoCaptured "blob:raw" MasterPhotoCapture.initialState)).
Proof.
  apply (next_advances_with_artifact
           (MasterPhotoCapture.goPrev
              (MasterPhotoCapture.handlePhotoCaptured "blob:raw"
                 MasterPhotoCapture.initialState)) "blob:raw").
  - reflexivity.
  - discriminate.
Defined.

(** ** The orchestrator: the handlers around the image utilities *)
Section ImageHandlers.
Import MasterPhotoCapture MasterPhotoCaptureHandlers.
Local Open Scope string_scope.

Variable env : ImageProcessor.Env.

Lemma whenLoaded_never_rejects (url : string)
    (k : ImageProcessor.Image -> ImageProcessor.Promise string) :
  (forall img, k img <> ImageProcessor.Rejected) ->
  ImageProcessor.whenLoaded env url k <> ImageProcessor.Rejected.
Proof.
  intros Hk. unfold ImageProcessor.whenLoaded.
  destruct (ImageProcessor.decode env url); [|discriminate].
  destruct (ImageProcessor.getContext env); [apply Hk|discriminate].
Qed.

Lemma encode_never_rejects (cv : ImageProcessor.Canvas) (mime : string) (q : num) :
  ImageProcessor.encode env cv mime q <> ImageProcessor.Rejected.
Proof.
  unfold ImageProcessor.encode.
  destruct (ImageProcessor.toBlob env cv mime q); discriminate.
Qed.

Lemma awaiting_reports_no_error (p : ImageProcessor.Promise string) (w : State)
    (done : string -> State -> State) (ok ko m : string) :
  p <> ImageProcessor.Rejected ->
  ~ In (ToastError m) (snd (awaiting p w done ok ko)).
Proof.
  intros Hp. destruct p as [u| |]; cbn;
    [intros [H|[]]; discriminate H | congruence | intros []].
Qed.

(** X11.  The error toasts of [handleCropComplete] and of
    [handleEnhanceComplete] are never shown: the promises they await
    have no way to reject. *)
Theorem image_handlers_never_report_an_error (url m : string) (s : State) :
  ~ In (ToastError m) (snd (handleCropComplete env url s))
  /\ ~ In (ToastError m) (snd (handleEnhanceComplete env url s)).
Proof.
  split; apply awaiting_reports_no_error; apply whenLoaded_never_rejects;
    intros img; apply encode_never_rejects.
Qed.

(** X12.  When the image behind the URL does not load, both handlers leave
    the step and the artifacts where they were, show no toast, and the
    progress message stays on the screen. *)
Theorem unloadable_image_leaves_the_progress_message (url : string) (s : State) :
  ImageProcessor.decode env url = None ->
  handleCropComplete env url s = (setProcessingStep "Optimizing image..." s, [])
  /\ handleEnhanceComplete env url s
     = (setProcessingStep "Applying background removal..." s, []).
Proof.
  intros Hd. unfold handleCropComplete, handleEnhanceComplete,
    ImageProcessor.resizeImage, ImageProcessor.applyFilters,
    ImageProcessor.whenLoaded.
  rewrite Hd. split; reflexivity.
Qed.

End ImageHandlers.

Lemma unloadable_image_leaves_the_progress_message_witness :
  let env := {| ImageProcessor.decode := fun _ => None;
                ImageProcessor.getContext := true;
                ImageProcessor.toBlob := fun _ _ _ => Some "blob:out"%string |} in
  MasterPhotoCaptureHandlers.handleCropComplete env "blob:gone"
    MasterPhotoCapture.initialState
  = (MasterPhotoCaptureHandlers.setProcessingStep "Optimizing image..."
       MasterPhotoCapture.initialState, [])
  /\ MasterPhotoCaptureHandlers.handleEnhanceComplete env "blob:gone"
       MasterPhotoCapture.initialState
     = (MasterPhotoCaptureHandlers.setProcessingStep "Applying background removal..."
          MasterPhotoCapture.initialState, []).
Proof.
  apply (unloadable_image_leaves_the_progress_message
           {| ImageProcessor.decode := fun _ => None;
              ImageProcessor.getContext := true;
              ImageProcessor.toBlob := fun _ _ _ => Some "blob:out"%string |}).
  reflexivity.
Defined.

(** ** The image utilities: dimensions *)
Section Dimensions.
Import ImageProcessor.
Local Open Scope Q_scope.

Lemma Qdiv_mult_cancel (a b : Q) : ~ b == 0 -> a / b * b == a.
Proof. intros H. field. exact H. Qed.



Lemma Qdiv_pos (a b : Q) : 0 < a -> 0 < b -> 0 < a / b.
Proof. intros Ha Hb. apply Qlt_shift_div_l; lra. Qed.

Lemma ltb_Fin (a b : Q) : ltb (Fin a) (Fin b) = negb (Qle_bool b a).
Proof. reflexivity. Qed.

Lemma div_Fin (a b : Q) : ~ b == 0 -> div (Fin a) (Fin b) = Fin (a / b).
Proof.
  intros H. cbn. destruct (Qeq_bool b 0) eqn:E; trivial.
  apply Qeq_bool_iff in E. contradiction.
Qed.

(** One step of [resizeImage]: the side that is too long is cut to its
    bound and the other side follows in proportion. *)
Lemma shrink_side (w h m : Q) :
  0 < w -> 0 < h -> 0 < m -> m < w ->
  0 < h * m / w /\ h * m / w < h /\ h * m / w * w == h * m.
Proof.
  intros Hw Hh Hm Hlt.
  assert (Hc : h * m / w * w == h * m) by (apply Qdiv_mult_cancel; lra).
  repeat split; trivial.
  - apply Qdiv_pos; trivial. apply Qmult_lt_0_compat; assumption.
  - apply Qlt_shift_div_r; trivial. apply Qmult_lt_l; assumption.
Qed.

(** X13.  [resizeImage] fits the image into the box: the new size is within
    [maxWidth] x [maxHeight], is never larger than the image (no
    upscaling), and is the size of the image when that already fits. *)
Theorem resizeImage_fits_the_box (w h mw mh : Q) :
  0 < w -> 0 < h -> 0 < mw -> 0 < mh ->
  exists w' h',
    resizedDimensions (Fin w) (Fin h) (Fin mw) (Fin mh) = (Fin w', Fin h')
    /\ 0 < w' /\ 0 < h'
    /\ w' <= mw /\ h' <= mh
    /\ w' <= w /\ h' <= h
    /\ (w <= mw -> h <= mh -> w' = w /\ h' = h).
Proof.
  intros Hw Hh Hmw Hmh.
  unfold resizedDimensions. rewrite ltb_Fin.
  destruct (Qle_bool w mw) eqn:E1; cbn [negb]; qfacts.
  - (* the width fits *)
    rewrite ltb_Fin. destruct (Qle_bool h mh) eqn:E2; cbn [negb]; qfacts.
    + exists w, h. repeat split; trivial; lra.
    + destruct (shrink_side h w mh Hh Hw Hmh E2) as (P1 & P2 & P3).
      cbn [mul]. rewrite div_Fin by lra.
      eexists _, _. split; [reflexivity|].
      repeat split; trivial; try lra.
  - (* the width is cut to maxWidth *)
    destruct (shrink_side w h mw Hw Hh Hmw E1) as (P1 & P2 & P3).
    cbn [mul]. rewrite div_Fin by lra. rewrite ltb_Fin.
    set (h1 := h * mw / w) in *.
    destruct (Qle_bool h1 mh) eqn:E2; cbn [negb]; qfacts.
    + exists mw, h1. repeat split; trivial; try lra.
    + destruct (shrink_side h1 mw mh P1 Hmw Hmh E2) as (R1 & R2 & R3).
      cbn [mul]. rewrite div_Fin by lra.
      eexists _, _. split; [reflexivity|].
      repeat split; trivial; try lra.
Qed.

End Dimensions.

Lemma resizeImage_fits_the_box_witness :
  exists w' h',
    ImageProcessor.resizedDimensions (Fin 1280) (Fin 720) (Fin 800) (Fin 1200)
    = (Fin w', Fin h')
    /\ (0 < w')%Q /\ (0 < h')%Q
    /\ (w' <= 800)%Q /\ (h' <= 1200)%Q
    /\ (w' <= 1280)%Q /\ (h' <= 720)%Q
    /\ ((1280 <= 800)%Q -> (720 <= 1200)%Q -> w' = 1280%Q /\ h' = 720%Q).
Proof.
  apply (resizeImage_fits_the_box 1280 720 800 1200); reflexivity.
Defined.

Section RatioCrop.
Import ImageProcessor.
Local Open Scope Q_scope.


End RatioCrop.


(** ** Background colours *)
Section HexColours.
Import ImageProcessor.
Local Open Scope Z_scope.

Lemma hexValue_range (c : ascii) (v : Z) : hexValue c = Some v -> 0 <= v <= 15.
Proof.
  unfold hexValue.
  destruct ((48 <=? _) && (_ <=? 57))%bool eqn:E1;
    [|destruct ((97 <=? _) && (_ <=? 102))%bool eqn:E2;
      [|destruct ((65 <=? _) && (_ <=? 70))%bool eqn:E3]];
    intros H; inversion H; subst;
    repeat match goal with
    | H : (_ && _)%bool = true |- _ => apply andb_true_iff in H; destruct H
    | H : (_ <=? _) = true |- _ => apply Z.leb_le in H
    end.
  all: lia.
Qed.

Lemma parseInt16_pair_range (c1 c2 : ascii) :
  isHex c1 = true -> isHex c2 = true ->
  0 <= parseInt16 (string_of_list_ascii [c1; c2]) <= 255.
Proof.
  unfold isHex, parseInt16.
  cbn [string_of_list_ascii list_ascii_of_string fold_left].
  destruct (hexValue c1) as [v1|] eqn:E1; [|discriminate].
  destruct (hexValue c2) as [v2|] eqn:E2; [|discriminate].
  intros _ _. apply hexValue_range in E1. apply hexValue_range in E2. lia.
Qed.

(** X16.  Whatever the string, [hexToRgb] answers three channels between 0
    and 255. *)
Theorem hexToRgb_channels_in_range (hex : string) :
  0 <= r (hexToRgb hex) <= 255
  /\ 0 <= g (hexToRgb hex) <= 255
  /\ 0 <= b (hexToRgb hex) <= 255.
Proof.
  unfold hexToRgb, hexPattern_exec.
  set (body := match hex with String "#"%char rest => rest | _ => hex end).
  destruct (list_ascii_of_string body) as [|c1 [|c2 [|c3 [|c4 [|c5 [|c6 [|c7 l]]]]]]];
    try (cbn; lia).
  destruct (forallb isHex [c1; c2; c3; c4; c5; c6]) eqn:E; [|cbn; lia].
  cbn [forallb] in E. rewrite !andb_true_iff in E.
  destruct E as (H1 & H2 & H3 & H4 & H5 & H6 & _).
  cbn [r g b]. repeat split; apply parseInt16_pair_range; assumption.
Qed.

Lemma hexPattern_length (hex : string) (groups : string * string * string) :
  hexPattern_exec hex = Some groups ->
  String.length hex = 6%nat \/ String.length hex = 7%nat.
Proof.
  unfold hexPattern_exec.
  assert (L : forall s, List.length (list_ascii_of_string s) = String.length s).
  { induction s; cbn; congruence. }
  destruct hex as [|c s]; [discriminate|].
  destruct (Ascii.eqb c "#") eqn:Ec.
  - apply Ascii.eqb_eq in Ec. subst c.
    pose proof (L s) as Ls.
    destruct (list_ascii_of_string s) as [|c1 [|c2 [|c3 [|c4 [|c5 [|c6 [|c7 l]]]]]]];
      try discriminate.
    intros _. right. cbn in *. congruence.
  - assert (Hb : match String c s with String "#"%char rest => rest | _ => String c s end
                 = String c s).
    { destruct c as [[] [] [] [] [] [] [] []]; try reflexivity. discriminate Ec. }
    rewrite Hb. pose proof (L (String c s)) as Ls.
    destruct (list_ascii_of_string (String c s))
      as [|c1 [|c2 [|c3 [|c4 [|c5 [|c6 [|c7 l]]]]]]]; try discriminate.
    intros _. left. cbn in *. congruence.
Qed.

(** X17.  A colour that is not six hexadecimal digits, with or without the
    leading [#], is read as white: so is every string whose length is
    neither 6 nor 7, the three-digit shorthand among them. *)
Theorem hexToRgb_falls_back_to_white (hex : string) :
  String.length hex <> 6%nat -> String.length hex <> 7%nat ->
  hexToRgb hex = white.
Proof.
  intros H6 H7. unfold hexToRgb.
  destruct (hexPattern_exec hex) as [groups|] eqn:E; [|reflexivity].
  apply hexPattern_length in E. tauto.
Qed.

(** X18.  The leading [#] is optional: six hexadecimal digits give the same
    colour with it and without it. *)
Theorem hexToRgb_hash_is_optional (digits : string) :
  String.length digits = 6%nat ->
  forallb isHex (list_ascii_of_string digits) = true ->
  hexToRgb (String "#" digits) = hexToRgb digits
  /\ hexPattern_exec digits <> None.
Proof.
  intros Hl Hh.
  destruct digits as [|c s]; [discriminate|].
  assert (Hc : isHex c = true) by (cbn in Hh; now apply andb_true_iff in Hh).
  assert (Hb : match String c s with String "#"%char rest => rest | _ => String c s end
               = String c s).
  { destruct c as [[] [] [] [] [] [] [] []]; try reflexivity. discriminate Hc. }
  unfold hexToRgb, hexPattern_exec. rewrite Hb. split; [reflexivity|].
  destruct s as [|c2 [|c3 [|c4 [|c5 [|c6 [|c7 s]]]]]]; try discriminate.
  cbn [list_ascii_of_string] in *. rewrite Hh. discriminate.
Qed.

End HexColours.

Lemma hexToRgb_falls_back_to_white_witness :
  ImageProcessor.hexToRgb "#fff" = ImageProcessor.white.
Proof.
  apply hexToRgb_falls_back_to_white; simpl; lia.
Defined.

Lemma hexToRgb_hash_is_optional_witness :
  ImageProcessor.hexToRgb "#E8f4Fd" = ImageProcessor.hexToRgb "E8f4Fd".
Proof.
  apply hexToRgb_hash_is_optional; reflexivity.
Defined.

(** The colours of the catalogue, read channel by channel. *)
Lemma hexToRgb_reads_catalogue_blue :
  ImageProcessor.hexToRgb "#e8f4fd"
  = {| ImageProcessor.r := 232; ImageProcessor.g := 244; ImageProcessor.b := 253 |}.
Proof. reflexivity. Qed.

(** ** File ingestion: what is accepted *)
Section Acceptance.
Import EnhancedPhotoCapture.
Local Open Scope string_scope.
Local Open Scope Z_scope.

(** X19.  A file of a supported type of at most 10 MiB, the bound included, is
    read, and what the reader gives becomes the selected image: the
    component goes to the crop step in edit mode. *)
Theorem supported_file_becomes_the_selected_image
    (f : File) (rest : list File) (st : State) (url : string) :
  includes supportedTypes (type f) = true ->
  size f <= 10 * MiB ->
  dataURL f = Some url -> url <> "" ->
  ingestFile (f :: rest) st
  = ({| activeMode := mode_edit; isStreaming := isStreaming st;
        selectedImage := Some url; editedImage := editedImage st;
        currentStep := step_crop |},
     [ReadAsDataURL f]).
Proof.
  intros Ht Hs Hd Hu. unfold ingestFile, handleFileUpload.
  rewrite Ht. cbn [negb].
  assert (Hlt : (maxFileSize <? size f) = false).
  { apply Z.ltb_ge. exact Hs. }
  rewrite Hlt. cbn [fold_left settle]. unfold reader_onload. rewrite Hd.
  destruct (String.eqb url "") eqn:E; [|reflexivity].
  apply String.eqb_eq in E. contradiction.
Qed.

(** Of a selection of several files only the first one is looked at;
    an upload sets off one notice or one read, never more, and the
    handler itself leaves the state alone. *)
Theorem upload_looks_at_the_first_file_only
    (files : list File) (st : State) :
  handleFileUpload files st = handleFileUpload (firstn 1 files) st
  /\ (List.length (snd (handleFileUpload files st)) <= 1)%nat
  /\ fst (handleFileUpload files st) = st.
Proof.
  unfold handleFileUpload. destruct files as [|f rest]; cbn [firstn].
  - repeat split. cbn. lia.
  - destruct (negb (includes supportedTypes (type f)));
      [|destruct (maxFileSize <? size f)]; repeat split; cbn; lia.
Qed.

End Acceptance.

Lemma supported_file_becomes_the_selected_image_witness :
  EnhancedPhotoCapture.ingestFile
    [Examples.fileOf "image/heic" (10 * EnhancedPhotoCapture.MiB)]
    EnhancedPhotoCapture.initialState
  = ({| EnhancedPhotoCapture.activeMode := EnhancedPhotoCapture.mode_edit;
        EnhancedPhotoCapture.isStreaming := false;
        EnhancedPhotoCapture.selectedImage := Some "data:;base64,AAAA"%string;
        EnhancedPhotoCapture.editedImage := None;
        EnhancedPhotoCapture.currentStep := EnhancedPhotoCapture.step_crop |},
     [EnhancedPhotoCapture.ReadAsDataURL
        (Examples.fileOf "image/heic" (10 * EnhancedPhotoCapture.MiB))]).
Proof.
  apply (supported_file_becomes_the_selected_image
           (Examples.fileOf "image/heic" (10 * EnhancedPhotoCapture.MiB)) []
           EnhancedPhotoCapture.initialState "data:;base64,AAAA").
  - reflexivity.
  - vm_compute. discriminate.
  - reflexivity.
  - discriminate.
Defined.

(** ** EnhancedPhotoCapture: its crop area and its backgrounds *)
Section Editor.
Import EnhancedPhotoEditor.
Local Open Scope Q_scope.

Variable env : Env.
Variable img : ImageElement.
Hypothesis Himg : imageRef env = Some img.

Local Abbreviation iW := (Fin (rect_width (boundingClientRect img))).
Local Abbreviation iH := (Fin (rect_height (boundingClientRect img))).

Lemma within_origin_finite (s : State) :
  within iW iH (cropArea s) = true ->
  finite (x (cropArea s)) /\ finite (y (cropArea s)).
Proof.
  unfold within. rewrite !andb_true_iff. intros [[[Hx Hy] Hxw] Hyh].
  split.
  - destruct (x (cropArea s)) as [| | |a]; try discriminate; [|now exists a].
    destruct (width (cropArea s)); discriminate.
  - destruct (y (cropArea s)) as [| | |a]; try discriminate; [|now exists a].
    destruct (height (cropArea s)); discriminate.
Qed.

Lemma editor_drag_within (p q : Q) (a : CropArea) :
  within iW iH a = true ->
  within iW iH
    {| x := Math_max (Fin 0) (Math_min (Fin p) (sub iW (width a)));
       y := Math_max (Fin 0) (Math_min (Fin q) (sub iH (height a)));
       width := width a; height := height a |} = true.
Proof.
  unfold within. rewrite !andb_true_iff.
  intros [[[Hx Hy] Hxw] Hyh]. cbn [x y width height].
  destruct (drag_clamp p _ _ _ _ (Qeq_refl _) Hx Hxw) as (rx & -> & Hrx & Hrxw).
  destruct (drag_clamp q _ _ _ _ (Qeq_refl _) Hy Hyh) as (ry & -> & Hry & Hryh).
  repeat split; trivial; now apply leb_Fin_intro.
Qed.

Lemma mouse_keeps_invariant (s : State) (m : Mouse) :
  editorInvariant iW iH s -> editorInvariant iW iH (mouse env s m).
Proof.
  intros [Hin [Hdx Hdy]].
  destruct (within_origin_finite s Hin) as [[a Ha] [b Hb]].
  destruct m as [e|e|]; cbn [mouse].
  - unfold handleCropMouseDown. rewrite Himg. cbn.
    split; [assumption|]. rewrite Ha, Hb. split; now eexists.
  - unfold handleCropMouseMove. rewrite Himg.
    destruct (isDragging s); [|split; [assumption|split; assumption]].
    destruct Hdx as [dx Hdx], Hdy as [dy Hdy].
    split; [|split; [now exists dx|now exists dy]].
    cbn. rewrite Hdx, Hdy. cbn [sub]. now apply editor_drag_within.
  - split; [assumption|split; assumption].
Qed.

(** X20.  The crop area of EnhancedPhotoCapture is 300 x 400 and no handler
    resizes it; shown on an image of at least that size it stays within
    the image under every sequence of mouse events. *)
Theorem editor_crop_area_stays_within_image (ms : list Mouse) :
  300 <= rect_width (boundingClientRect img) ->
  400 <= rect_height (boundingClientRect img) ->
  within iW iH (cropArea (fold_left (mouse env) ms initialState)) = true
  /\ width (cropArea (fold_left (mouse env) ms initialState)) = Fin 300
  /\ height (cropArea (fold_left (mouse env) ms initialState)) = Fin 400.
Proof.
  intros HW HH.
  assert (Hinv : editorInvariant iW iH initialState
                 /\ width (cropArea initialState) = Fin 300
                 /\ height (cropArea initialState) = Fin 400).
  { split; [|split; reflexivity]. split; [|split; now eexists].
    unfold within. cbn. rewrite !andb_true_iff.
    repeat split; apply Qle_bool_iff; lra. }
  revert Hinv. generalize initialState.
  induction ms as [|m ms IH]; intros s (Hi & Hw & Hh).
  - split; [apply Hi|]. split; assumption.
  - cbn [fold_left]. apply IH. split; [now apply mouse_keeps_invariant|].
    destruct m as [e|e|]; cbn [mouse].
    + unfold handleCropMouseDown. rewrite Himg. split; assumption.
    + unfold handleCropMouseMove. rewrite Himg.
      destruct (isDragging s); split; assumption.
    + split; assumption.
Qed.


End Editor.

Lemma editor_crop_area_stays_within_image_witness :
  EnhancedPhotoEditor.within (Fin 600) (Fin 800)
    (EnhancedPhotoEditor.cropArea
       (fold_left (EnhancedPhotoEditor.mouse EditorExamples.editorEnv)
          [EnhancedPhotoEditor.Down (EditorExamples.at_ 50 50);
           EnhancedPhotoEditor.Move (EditorExamples.at_ 900 (-40));
           EnhancedPhotoEditor.Up;
           EnhancedPhotoEditor.Move (EditorExamples.at_ 0 0)]
          EnhancedPhotoEditor.initialState)) = true.
Proof.
  apply (editor_crop_area_stays_within_image EditorExamples.editorEnv
           EditorExamples.shown eq_refl);
    unfold Qle; simpl; lia.
Defined.


Section EditorOutput.
Import EnhancedPhotoEditor.
Local Open Scope Q_scope.

Variable env : Env.


(** X23.  With a known template and an edited image that loads,
    [applyTemplate] puts the image on a canvas 40 px wider and higher,
    20 px in from the left and from the top: a border of 20 px all
    round, as long as the image is less than 2^31 - 40 px wide and high,
    so that the canvas takes the size.  The result replaces the edited
    image and the template is marked as selected. *)
Theorem editor_applyTemplate_frames_the_image
    (templateId edited finalUrl : string) (t : Template) (s : State)
    (cv : Canvas) (w h : Z) :
  canvasRef env = Some cv ->
  has_context cv = true ->
  editedImage s = Some edited -> edited <> ""%string ->
  findTemplate templateId = Some t ->
  decode env edited = Some (w, h) ->
  (0 <= w < 2 ^ 31 - 40)%Z -> (0 <= h < 2 ^ 31 - 40)%Z ->
  toBlob env (framed t w h) = Some finalUrl ->
  exists out fill,
    applyTemplate env templateId s
    = (Some out, setEditedImage (Some finalUrl) (setSelectedTemplate templateId s))
    /\ canvas_width out = (w + 40)%Z
    /\ canvas_height out = (h + 40)%Z
    /\ drawn out
       = [SetFillStyle fill;
          FillRect (Fin 0) (Fin 0) (Fin (inject_Z (w + 40))) (Fin (inject_Z (h + 40)));
          DrawImageScaled (Fin (inject_Z 20)) (Fin (inject_Z 20))
            (Fin (inject_Z w)) (Fin (inject_Z h))].
Proof.
  intros Hcv Hctx He Hne Hf Hd Hw Hh Hb.
  assert (Ee : String.eqb edited "" = false).
  { destruct (String.eqb edited "") eqn:E; trivial.
    apply String.eqb_eq in E. contradiction. }
  assert (Cw : canvasWidthOf (add (Fin (inject_Z w)) (mul (Fin (inject_Z padding)) (Fin 2)))
               = (w + 40)%Z).
  { cbn [add mul]. unfold canvasWidthOf. rewrite reflected_floor.
    - unfold padding. rewrite <- (Qfloor_Z (w + 40)). apply Qfloor_comp.
      rewrite inject_Z_plus. change (inject_Z 40) with 40.
      change (inject_Z 20) with 20. ring.
    - change (inject_Z padding) with 20.
      assert (0 <= inject_Z w) by (change 0 with (inject_Z 0); rewrite <- Zle_Qle; lia).
      lra.
    - change (inject_Z padding) with 20.
      assert (Hlt : inject_Z (w + 40) < inject_Z (2 ^ 31)) by (rewrite <- Zlt_Qlt; lia).
      rewrite inject_Z_plus in Hlt. change (inject_Z 40) with 40 in Hlt. lra. }
  assert (Ch : canvasHeightOf (add (Fin (inject_Z h)) (mul (Fin (inject_Z padding)) (Fin 2)))
               = (h + 40)%Z).
  { cbn [add mul]. unfold canvasHeightOf. rewrite reflected_floor.
    - unfold padding. rewrite <- (Qfloor_Z (h + 40)). apply Qfloor_comp.
      rewrite inject_Z_plus. change (inject_Z 40) with 40.
      change (inject_Z 20) with 20. ring.
    - change (inject_Z padding) with 20.
      assert (0 <= inject_Z h) by (change 0 with (inject_Z 0); rewrite <- Zle_Qle; lia).
      lra.
    - change (inject_Z padding) with 20.
      assert (Hlt : inject_Z (h + 40) < inject_Z (2 ^ 31)) by (rewrite <- Zlt_Qlt; lia).
      rewrite inject_Z_plus in Hlt. change (inject_Z 40) with 40 in Hlt. lra. }
  unfold applyTemplate. rewrite Hcv, He, Ee, Hctx, Hf, Hd, Hb.
  unfold framed. rewrite Cw, Ch.
  do 2 eexists. split; [reflexivity|]. repeat split.
Qed.

End EditorOutput.


Lemma editor_applyTemplate_frames_the_image_witness :
  exists out fill,
    EnhancedPhotoEditor.applyTemplate EditorExamples.editorEnv "blue"
      EditorExamples.cropped
    = (Some out,
       EnhancedPhotoEditor.setEditedImage (Some "blob:edited"%string)
         (EnhancedPhotoEditor.setSelectedTemplate "blue" EditorExamples.cropped))
    /\ EnhancedPhotoEditor.canvas_width out = (600 + 40)%Z
    /\ EnhancedPhotoEditor.canvas_height out = (800 + 40)%Z
    /\ EnhancedPhotoEditor.drawn out
       = [EnhancedPhotoEditor.SetFillStyle fill;
          EnhancedPhotoEditor.FillRect (Fin 0) (Fin 0)
            (Fin (inject_Z (600 + 40))) (Fin (inject_Z (800 + 40)));
          EnhancedPhotoEditor.DrawImageScaled (Fin (inject_Z 20)) (Fin (inject_Z 20))
            (Fin (inject_Z 600)) (Fin (inject_Z 800))].
Proof.
  apply (editor_applyTemplate_frames_the_image EditorExamples.editorEnv
           "blue" "blob:crop" "blob:edited" EditorExamples.blue
           EditorExamples.cropped EditorExamples.blank 600 800);
    try reflexivity; try discriminate; lia.
Defined.

(** ** The templating stage: layout *)
Section TemplateLayout.
Import CVPhotoTemplates CVPhotoTemplatesView.
Local Open Scope Q_scope.


(** Where the image goes: inside the canvas less 40 px on every side,
    centred, in its own proportions, touching the padded area on two
    opposite sides. *)
Lemma image_placement (cw ch iw ih : Q) :
  80 < cw -> 80 < ch -> 0 < iw -> 0 < ih ->
  let aw := cw - 40 * 2 in
  let ah := ch - 40 * 2 in
  exists w h,
    (if ltb (div (Fin aw) (Fin ah)) (div (Fin iw) (Fin ih))
     then (Fin aw, div (Fin aw) (div (Fin iw) (Fin ih)))
     else (mul (Fin ah) (div (Fin iw) (Fin ih)), Fin ah))
    = (Fin w, Fin h)
    /\ 0 < w /\ 0 < h /\ w <= aw /\ h <= ah
    /\ w * ih == h * iw
    /\ (w == aw \/ h == ah).
Proof.
  intros Hcw Hch Hiw Hih aw ah.
  assert (Haw : 0 < aw) by (unfold aw; lra).
  assert (Hah : 0 < ah) by (unfold ah; lra).
  rewrite !div_Fin by lra. rewrite ltb_Fin.
  assert (Hir : 0 < iw / ih) by (apply Qdiv_pos; trivial).
  assert (Hic : iw / ih * ih == iw) by (apply Qdiv_mult_cancel; lra).
  destruct (Qle_bool (iw / ih) (aw / ah)) eqn:E; cbn [negb]; qfacts.
  - (* the image is no wider than the area: full height *)
    cbn [mul].
    assert (Hle : ah * (iw / ih) <= aw).
    { rewrite Qmult_comm. rewrite <- (Qdiv_mult_cancel aw ah) by lra.
      apply Qmult_le_compat_r; lra. }
    do 2 eexists. split; [reflexivity|].
    split; [apply Qmult_lt_0_compat; assumption|].
    split; [lra|]. split; [exact Hle|]. split; [lra|].
    split; [|right; reflexivity].
    rewrite <- Qmult_assoc, Hic. ring.
  - (* the image is wider: full width *)
    rewrite div_Fin by lra.
    assert (E' : aw < iw / ih * ah).
    { rewrite <- (Qdiv_mult_cancel aw ah) at 1 by lra.
      apply Qmult_lt_compat_r; assumption. }
    assert (Hh : 0 < aw / (iw / ih)) by (apply Qdiv_pos; trivial).
    assert (Hc : aw / (iw / ih) * (iw / ih) == aw) by (apply Qdiv_mult_cancel; lra).
    do 2 eexists. split; [reflexivity|].
    split; [lra|]. split; [lra|]. split; [lra|].
    split; [apply Qle_shift_div_r; trivial; rewrite Qmult_comm; lra|].
    split; [|left; reflexivity].
    field. split; lra.
Qed.

End TemplateLayout.

Section TemplatePaint.
Import CVPhotoTemplates CVPhotoTemplatesView.
Local Open Scope Q_scope.

Lemma canvasSize_bounds (t : PhotoTemplate) (r : Q) :
  ratio t = Fin r -> 1 # 10 < r -> r < 10 ->
  exists cw ch, canvasSize t = (Fin cw, Fin ch) /\ 80 < cw /\ 80 < ch.
Proof.
  intros Hr Hlo Hhi. unfold canvasSize, maxSize. rewrite Hr. cbn [leb].
  destruct (Qle_bool 1 r) eqn:E; qfacts.
  - rewrite div_Fin by lra. do 2 eexists. split; [reflexivity|].
    split; [lra|]. apply Qlt_shift_div_l; lra.
  - cbn [mul]. do 2 eexists. split; [reflexivity|]. split; lra.
Qed.

Variable parses : string -> bool.

(** The ops of [paint] around the image, where the background is painted
    without an exception: one image, and after it the white rectangle of
    the shadow frame or no fill at all. *)
Lemma paint_layout (t : PhotoTemplate) (img : Image) (cw ch : Q) :
  canvasSize t = (Fin cw, Fin ch) ->
  backgroundAccepted parses (Fin cw) (Fin ch) (background t) = true ->
  80 < cw -> 80 < ch -> 0 < img_width img -> 0 < img_height img ->
  exists out w h,
    paint parses t img = inr out
    /\ imageRects out
       = [(Fin ((cw - w) / 2), Fin ((ch - h) / 2), Fin w, Fin h)]
    /\ fillsOverImage out
       = match frame t with
         | Some f =>
             match style f with
             | shadow => [(Fin 10, Fin 10, Fin (cw - 20), Fin (ch - 20))]
             | _ => []
             end
         | None => []
         end
    /\ 0 < w /\ 0 < h /\ w <= cw - 40 * 2 /\ h <= ch - 40 * 2
    /\ w * img_height img == h * img_width img
    /\ (w == cw - 40 * 2 \/ h == ch - 40 * 2).
Proof.
  intros Hcs Hacc Hcw Hch Hiw Hih.
  destruct (image_placement cw ch (img_width img) (img_height img) Hcw Hch Hiw Hih)
    as (w & h & Heq & Hfacts).
  cbn [mul sub] in Heq.
  assert (E2 : forall q, div (Fin q) (Fin 2) = Fin (q / 2)).
  { intros q. apply div_Fin. intros H0; discriminate H0. }
  unfold paint. rewrite Hcs.
  destruct (background t) eqn:Eb;
    [| rewrite Hacc |];
    unfold bind, ret, padding; cbn [mul sub]; rewrite Heq, !E2;
    (eexists; exists w, h; split; [reflexivity|]; split; [|split; [|exact Hfacts]]).
  all: unfold imageRects, fillsOverImage; cbn [drawn];
    rewrite ?flat_map_app;
    destruct (effects t), (frame t) as [[[] ?]|]; reflexivity.
Qed.


(** X26.  Where the background is painted without an exception, the
    shadow frame is painted over the image: its white rectangle, 10 px in
    from the canvas edges, is filled after the image is drawn and
    contains the whole image rectangle. *)
Theorem shadow_frame_covers_the_image
    (t : PhotoTemplate) (img : Image) (f : Frame) (r : Q) :
  ratio t = Fin r -> 1 # 10 < r -> r < 10 ->
  0 < img_width img -> 0 < img_height img ->
  backgroundAccepted parses (fst (canvasSize t)) (snd (canvasSize t))
    (background t) = true ->
  frame t = Some f -> style f = shadow ->
  exists out x y w h fx fy fw fh,
    paint parses t img = inr out
    /\ imageRects out = [(Fin x, Fin y, Fin w, Fin h)]
    /\ fillsOverImage out = [(Fin fx, Fin fy, Fin fw, Fin fh)]
    /\ fx <= x /\ fy <= y
    /\ x + w <= fx + fw /\ y + h <= fy + fh.
Proof.
  intros Hr Hlo Hhi Hiw Hih Hacc Hf Hs.
  destruct (canvasSize_bounds t r Hr Hlo Hhi) as (cw & ch & Hcs & Hcw & Hch).
  rewrite Hcs in Hacc. cbn [fst snd] in Hacc.
  destruct (paint_layout t img cw ch Hcs Hacc Hcw Hch Hiw Hih)
    as (out & w & h & Hout & Hrect & Hfill & Hw & Hh & Hwa & Hha & _).
  rewrite Hf, Hs in Hfill.
  exists out. do 8 eexists. split; [exact Hout|].
  split; [exact Hrect|]. split; [exact Hfill|].
  assert (Hx : (cw - w) / 2 == (cw - w) * (1 # 2)) by field.
  assert (Hy : (ch - h) / 2 == (ch - h) * (1 # 2)) by field.
  rewrite Hx, Hy. repeat split; lra.
Qed.

(** X31.  A gradient needs two colours.  With a single one the offset of its
    stop is 0/0, which [addColorStop] refuses: the exception is caught
    and logged, the canvas is left resized and blank, and nothing is
    published. *)
Theorem single_colour_gradient_is_never_applied
    (env : Env) (t : PhotoTemplate) (st : State) (cv : Canvas) (img : Image)
    (c : string) :
  canvasRef env = Some cv ->
  has_context cv = true ->
  decode env (imageUrl env) = Some img ->
  background t = Gradient [c] ->
  let o := applyTemplate env t st in
  effects_out o = [ConsoleError "Error applying template:" GradientError]
  /\ published o = false
  /\ previewUrl (state o) = previewUrl st
  /\ option_map drawn (canvas o) = Some [].
Proof.
  intros Hcv Hctx Hd Hb. unfold applyTemplate, render.
  rewrite Hcv, Hctx, Hd. cbn [bind ret]. unfold paint.
  destruct (canvasSize t) as [cw ch]. rewrite Hb.
  unfold backgroundAccepted, gradientStops.
  cbn [List.length seq combine map forallb fst snd].
  match goal with
  | |- context [stopAccepted ?p ?stop] =>
      assert (Hs : stopAccepted p stop = false) by reflexivity; rewrite Hs
  end.
  rewrite !andb_false_r. cbn. repeat split.
Qed.

End TemplatePaint.



Lemma shadow_frame_covers_the_image_witness :
  exists out x y w h fx fy fw fh,
    CVPhotoTemplates.paint (String.prefix "#") Examples.linkedin
      {| CVPhotoTemplates.img_width := 400; CVPhotoTemplates.img_height := 600 |}
    = inr out
    /\ CVPhotoTemplatesView.imageRects out = [(Fin x, Fin y, Fin w, Fin h)]
    /\ CVPhotoTemplatesView.fillsOverImage out = [(Fin fx, Fin fy, Fin fw, Fin fh)]
    /\ (fx <= x)%Q /\ (fy <= y)%Q
    /\ (x + w <= fx + fw)%Q /\ (y + h <= fy + fh)%Q.
Proof.
  apply (shadow_frame_covers_the_image (String.prefix "#") Examples.linkedin
           {| CVPhotoTemplates.img_width := 400; CVPhotoTemplates.img_height := 600 |}
           {| CVPhotoTemplates.style := CVPhotoTemplates.shadow;
              CVPhotoTemplates.color := None |} (4 / 5)); reflexivity.
Defined.

Lemma single_colour_gradient_is_never_applied_witness :
  let t :=
    {| CVPhotoTemplates.id := "plain"%string; CVPhotoTemplates.name := "Plain"%string;
       CVPhotoTemplates.category := CVPhotoTemplates.modern;
       CVPhotoTemplates.background := CVPhotoTemplates.Gradient ["#ffffff"%string];
       CVPhotoTemplates.effects := None; CVPhotoTemplates.frame := None;
       CVPhotoTemplates.ratio := Fin 1 |} in
  let o :=
    CVPhotoTemplates.applyTemplate
      (Examples.templateEnv
         (Some {| CVPhotoTemplates.img_width := 400; CVPhotoTemplates.img_height := 600 |}))
      t Examples.previewed in
  CVPhotoTemplates.effects_out o
  = [CVPhotoTemplates.ConsoleError "Error applying template:"
       CVPhotoTemplates.GradientError]
  /\ CVPhotoTemplates.published o = false
  /\ CVPhotoTemplates.previewUrl (CVPhotoTemplates.state o) = "blob:previous"%string
  /\ option_map CVPhotoTemplates.drawn (CVPhotoTemplates.canvas o) = Some [].
Proof.
  apply (single_colour_gradient_is_never_applied
           (Examples.templateEnv
              (Some {| CVPhotoTemplates.img_width := 400;
                       CVPhotoTemplates.img_height := 600 |}))
           _ Examples.previewed Examples.templateCanvas
           {| CVPhotoTemplates.img_width := 400; CVPhotoTemplates.img_height := 600 |}
           "#ffffff"); reflexivity.
Defined.

(** ** The templating stage: the catalogue by category *)
Section Catalogue.
Import CVPhotoTemplates CVPhotoTemplatesView.

Lemma Category_eqb_eq (a b : Category) : Category_eqb a b = true <-> a = b.
Proof. destruct a, b; cbn; split; congruence. Qed.

Lemma Category_eqb_refl (a : Category) : Category_eqb a a = true.
Proof. now apply Category_eqb_eq. Qed.

Lemma lookup_push (c k : Category) (t : PhotoTemplate)
    (acc : list (Category * list PhotoTemplate)) :
  lookup c (push k t acc)
  = if Category_eqb k c then
      Some (match lookup c acc with Some ts => ts ++ [t] | None => [t] end)
    else lookup c acc.
Proof.
  induction acc as [|[k' ts] acc IH]; cbn [push lookup].
  - destruct (Category_eqb k c); reflexivity.
  - destruct (Category_eqb k' k) eqn:Ek.
    + apply Category_eqb_eq in Ek. subst k'. cbn [lookup].
      destruct (Category_eqb k c); reflexivity.
    + cbn [lookup]. destruct (Category_eqb k' c) eqn:Ec.
      * apply Category_eqb_eq in Ec. subst k'.
        destruct (Category_eqb k c) eqn:E2; [|reflexivity].
        apply Category_eqb_eq in E2. subst k.
        rewrite Category_eqb_refl in Ek. discriminate.
      * exact IH.
Qed.

Lemma lookup_groupInto (c : Category) (l : list PhotoTemplate)
    (acc : list (Category * list PhotoTemplate)) :
  lookup c (groupInto acc l)
  = match lookup c acc, ofCategory c l with
    | Some ts, g => Some (ts ++ g)
    | None, [] => None
    | None, g => Some g
    end.
Proof.
  revert acc. induction l as [|t l IH]; intros acc.
  - cbn. destruct (lookup c acc); [now rewrite app_nil_r|reflexivity].
  - unfold groupInto in *. cbn [fold_left ofCategory filter].
    rewrite IH, lookup_push. fold (ofCategory c l).
    destruct (Category_eqb (category t) c) eqn:E.
    + destruct (lookup c acc) as [ts|].
      * now rewrite <- app_assoc.
      * reflexivity.
    + destruct (lookup c acc) as [ts|]; reflexivity.
Qed.

Lemma keys_push (k : Category) (t : PhotoTemplate)
    (acc : list (Category * list PhotoTemplate)) :
  (In k (map fst acc) /\ map fst (push k t acc) = map fst acc)
  \/ (~ In k (map fst acc) /\ map fst (push k t acc) = map fst acc ++ [k]).
Proof.
  induction acc as [|[k' ts] acc IH]; cbn [push map fst].
  - right. split; [intros []|reflexivity].
  - destruct (Category_eqb k' k) eqn:Ek.
    + apply Category_eqb_eq in Ek. subst k'. left. split; [now left|reflexivity].
    + assert (Hne : k' <> k).
      { intros ->. rewrite Category_eqb_refl in Ek. discriminate. }
      cbn [map fst app]. destruct IH as [[Hin Heq]|[Hn Heq]].
      * left. split; [now right|now rewrite Heq].
      * right. split; [|now rewrite Heq].
        intros [H|H]; [contradiction|]. now apply Hn.
Qed.

Lemma keys_groupInto (l : list PhotoTemplate)
    (acc : list (Category * list PhotoTemplate)) :
  NoDup (map fst acc) -> NoDup (map fst (groupInto acc l)).
Proof.
  revert acc. induction l as [|t l IH]; intros acc Hnd; [exact Hnd|].
  unfold groupInto in *. cbn [fold_left]. apply IH.
  destruct (keys_push (category t) t acc) as [[_ ->]|[Hn ->]]; trivial.
  apply NoDup_app; repeat split; trivial.
  - constructor; [intros []|constructor].
  - intros a Ha [<-|[]]. contradiction.
Qed.

(** X27.  Grouping by category loses nothing and mixes nothing: each
    category heads one group at most, the group of a category is the
    list of the templates of that category, in the order of the
    catalogue, and a category without template has no group. *)
Theorem templatesByCategory_groups_exactly (c : Category) (l : list PhotoTemplate) :
  NoDup (map fst (templatesByCategory l))
  /\ lookup c (templatesByCategory l)
     = match ofCategory c l with
       | [] => None
       | g => Some g
       end.
Proof.
  unfold templatesByCategory. split.
  - apply keys_groupInto. constructor.
  - rewrite lookup_groupInto. reflexivity.
Qed.

End Catalogue.

(** The catalogue of the component falls into four groups, in the
    order in which their first templates appear. *)
Lemma catalogue_groups :
  map (fun g => (fst g, map CVPhotoTemplates.id (snd g)))
      (CVPhotoTemplatesView.templatesByCategory CVPhotoTemplates.photoTemplates)
  = [(CVPhotoTemplates.professional, ["professional-white"; "professional-gray"]%string);
     (CVPhotoTemplates.modern,
      ["corporate-gradient"; "linkedin-style"; "startup-modern"]%string);
     (CVPhotoTemplates.formal, ["government-blue"; "passport-standard"]%string);
     (CVPhotoTemplates.creative, ["creative-warm"; "artistic-minimal"]%string)].
Proof. reflexivity. Qed.

(** ** The home page: what survives a sign-out *)
Section Backup.
Import HomePage.
Local Open Scope string_scope.

Variable stringify : Backup -> string.
Variable parse : string -> option Backup.

Lemma backupKey_is_fresh (email k : string) :
  In k ("isLoggedIn" :: backedUpKeys) -> String.eqb k (backupKey email) = false.
Proof.
  unfold backupKey, backedUpKeys. cbn [In].
  intros [<-|[<-|[<-|[<-|[<-|[]]]]]]; reflexivity.
Qed.

Lemma truthy_Some (s : string) : s <> "" -> truthy (Some s) = true.
Proof.
  intros H. cbn. destruct (String.eqb s "") eqn:E; trivial.
  apply String.eqb_eq in E. contradiction.
Qed.

Lemma logout_backup_entry (email now : string) (ls : Storage) :
  email <> "" -> now <> "" ->
  getItem (backupKey email) (handleLogout stringify (Some email) now ls)
  = Some (stringify (snapshot now ls))
  /\ getItem "isLoggedIn" (handleLogout stringify (Some email) now ls) = None
  /\ forall k, In k backedUpKeys ->
       getItem k (handleLogout stringify (Some email) now ls) = getItem k ls.
Proof.
  intros He Hn.
  assert (Hdata : existsb truthy
            [getItem "currentCV" ls; getItem "activeTab" ls;
             getItem "aiChatHistory" ls; getItem "selectedTemplate" ls; Some now]
          = true).
  { cbn [existsb]. rewrite (truthy_Some now Hn). now rewrite !orb_true_r. }
  unfold handleLogout. rewrite (truthy_Some email He).
  cbn [currentCV activeTab aiChatHistory selectedTemplate backupTimestamp].
  rewrite Hdata. unfold getItem, removeItem, setItem.
  split; [|split].
  - assert (E : String.eqb (backupKey email) "isLoggedIn" = false) by reflexivity.
    rewrite E, String.eqb_refl. reflexivity.
  - reflexivity.
  - intros k Hk.
    assert (E1 : String.eqb k "isLoggedIn" = false).
    { cbn in Hk. destruct Hk as [<-|[<-|[<-|[<-|[]]]]]; reflexivity. }
    rewrite E1, (backupKey_is_fresh email k) by now right.
    reflexivity.
Qed.

(** X28.  For a signed-in user [handleLogout] always writes the backup: the
    time stamp alone counts as data, so the test for actual data never
    stops it.  The entry that marks the login is removed and the data
    itself stays in place. *)
Theorem logout_always_writes_the_backup
    (email now : string) (ls : Storage) :
  email <> "" -> now <> "" ->
  getItem (backupKey email) (handleLogout stringify (Some email) now ls)
  = Some (stringify (snapshot now ls))
  /\ getItem "isLoggedIn" (handleLogout stringify (Some email) now ls) = None
  /\ forall k, In k backedUpKeys ->
       getItem k (handleLogout stringify (Some email) now ls) = getItem k ls.
Proof. apply logout_backup_entry. Qed.

Lemma restore_other (k k' : string) (v : option string) (ls : Storage) :
  String.eqb k k' = false -> getItem k (restore k' v ls) = getItem k ls.
Proof.
  intros E. unfold restore, getItem, setItem.
  destruct v as [s|]; [|reflexivity].
  destruct (truthy (Some s)); [|reflexivity]. now rewrite E.
Qed.

(** X29.  The restore of [handleLogin] is never reached.  The sign-in
    page is the only place that is handed [handleLogin], and the page
    renders it only while there is no session, so the handler finds no
    e-mail: it marks the login and leaves every other entry of the
    storage as it is, the backup unread. *)
Theorem manual_login_restores_nothing
    (loading isLoggedIn : bool) (session : option Session)
    (onLogin : Storage -> Storage) (ls : Storage) (k : string) :
  render stringify parse loading isLoggedIn session = AuthPage onLogin ->
  getItem k (onLogin ls)
  = if String.eqb k "isLoggedIn" then Some "true" else getItem k ls.
Proof.
  unfold render.
  destruct loading; [discriminate|].
  destruct isLoggedIn; [discriminate|].
  destruct session; [discriminate|].
  cbn [negb andb]. intros [= <-]. reflexivity.
Qed.

(** X30.  The automatic restore on a new session keeps a CV that is already
    in the storage: it writes the backed-up CV only where there is none. *)
Theorem autoRestore_keeps_an_existing_cv
    (userEmail : option string) (cv : string) (ls : Storage) :
  getItem "currentCV" ls = Some cv -> cv <> "" ->
  getItem "currentCV" (autoRestore parse userEmail ls) = Some cv.
Proof.
  intros Hcv Hne.
  assert (H0 : getItem "currentCV" (setItem "isLoggedIn" "true" ls) = Some cv).
  { unfold getItem, setItem in *. cbn. exact Hcv. }
  unfold autoRestore.
  destruct userEmail as [email|]; [|exact H0].
  destruct (truthy (Some email)); [|exact H0].
  destruct (getItem (backupKey email) _) as [saved|]; [|exact H0].
  destruct (truthy (Some saved)); [|exact H0].
  destruct (parse saved) as [b|]; [|exact H0].
  rewrite restore_other by reflexivity.
  unfold restoreIfMissing at 1.
  match goal with
  | |- getItem _ (if ?c then ?a else ?b) = _ =>
      assert (Hin : getItem "currentCV" a = Some cv)
  end.
  { rewrite restore_other by reflexivity.
    unfold restoreIfMissing. rewrite H0, (truthy_Some cv Hne). exact H0. }
  match goal with
  | |- getItem _ (if ?c then _ else _) = _ => destruct c
  end; [exact Hin|].
  rewrite restore_other by reflexivity. exact Hin.
Qed.

End Backup.

Lemma logout_always_writes_the_backup_witness :
  HomePage.getItem (HomePage.backupKey "ani@mail.id")
    (HomePage.handleLogout HomePage.stringifyLines (Some "ani@mail.id"%string)
       "2024-05-01T08:00:00.000Z" HomePage.emptyStorage)
  = Some (HomePage.stringifyLines
            (HomePage.snapshot "2024-05-01T08:00:00.000Z" HomePage.emptyStorage)).
Proof.
  apply (logout_always_writes_the_backup HomePage.stringifyLines
           "ani@mail.id" "2024-05-01T08:00:00.000Z" HomePage.emptyStorage);
    discriminate.
Defined.

Lemma manual_login_restores_nothing_witness :
  let later :=
    HomePage.removeItem "currentCV"
      (HomePage.handleLogout HomePage.stringifyLines (Some "ani@mail.id"%string)
         "2024-05-01T08:00:00.000Z" HomePage.usedStorage) in
  HomePage.getItem "currentCV" (HomePage.handleLogin HomePage.parseLines None later)
  = if String.eqb "currentCV" "isLoggedIn" then Some "true"%string
    else HomePage.getItem "currentCV" later.
Proof.
  apply (manual_login_restores_nothing HomePage.stringifyLines HomePage.parseLines
           false false None).
  reflexivity.
Defined.

Lemma autoRestore_keeps_an_existing_cv_witness :
  HomePage.getItem "currentCV"
    (HomePage.autoRestore HomePage.parseLines (Some "ani@mail.id"%string)
       (HomePage.setItem "currentCV" "{name:Budi}"
          (HomePage.handleLogout HomePage.stringifyLines (Some "ani@mail.id"%string)
             "2024-05-01T08:00:00.000Z" HomePage.usedStorage)))
  = Some "{name:Budi}"%string.
Proof.
  apply (autoRestore_keeps_an_existing_cv HomePage.parseLines).
  - reflexivity.
  - discriminate.
Defined.
